(** * action-autotag: tag decision and changelog generation

    A shallow embedding of [src/main.ts]: the template formatter, the
    changelog generator, the tag message resolver, the tag existence check
    and the orchestration around them, followed by the properties the
    specification states about them.

    JavaScript strings are modelled as [string]; a character stands for one
    code unit in the range 0..255.  Calls to the hosting service and to the
    Actions toolkit are recorded in a trace of events, and a thrown value is
    an explicit outcome of an action. *)

From Stdlib Require Import String Ascii List Bool Arith ZArith Lia.
From Equations Require Import Equations.
From Equations.Prop Require Import Logic.
Import ListNotations.

Open Scope list_scope.
Open Scope string_scope.

(** ** JavaScript string and array primitives used by the program *)

Module Js.

(** The line feed, written ['\n'] in the source. *)
Definition LF : ascii := ascii_of_nat 10.
Definition nl : string := String LF EmptyString.

(** The double quote character, as a string. *)
Definition quote : string := String (ascii_of_nat 34) EmptyString.

(** A string is truthy exactly when it is not empty. *)
Definition truthy (s : string) : bool :=
  match s with
  | EmptyString => false
  | String _ _ => true
  end.

(** [undefined] is falsy; a defined string follows [truthy]. *)
Definition truthy_opt (o : option string) : bool :=
  match o with
  | None => false
  | Some s => truthy s
  end.

(** [a || b] on strings. *)
Definition or_else (a b : string) : string := if truthy a then a else b.

(** White space and line terminators removed by [String.prototype.trim],
    among the code units below 256: TAB, LF, VT, FF, CR, SP and NBSP. *)
Definition is_space (a : ascii) : bool :=
  let n := nat_of_ascii a in
  (((9 <=? n) && (n <=? 13)) || (n =? 32) || (n =? 160))%nat.

Fixpoint trim_start (s : string) : string :=
  match s with
  | EmptyString => EmptyString
  | String a s' => if is_space a then trim_start s' else s
  end.

(** Drops trailing white space: a character is kept when it is not white
    space or when something is kept after it. *)
Fixpoint trim_end (s : string) : string :=
  match s with
  | EmptyString => EmptyString
  | String a s' =>
      match trim_end s' with
      | EmptyString => if is_space a then EmptyString else String a EmptyString
      | r => String a r
      end
  end.

Definition trim (s : string) : string := trim_end (trim_start s).

(** [s.split(sep)] for a one-character separator; the result is never
    empty. *)
Fixpoint split (sep : ascii) (s : string) : list string :=
  match s with
  | EmptyString => [EmptyString]
  | String a s' =>
      if Ascii.eqb a sep then EmptyString :: split sep s'
      else match split sep s' with
           | piece :: pieces => String a piece :: pieces
           | [] => [String a EmptyString]
           end
  end.

(** [arr[0]]; reading past the end gives [undefined]. *)
Definition first (l : list string) : option string :=
  match l with
  | [] => None
  | x :: _ => Some x
  end.

(** A replacer callback that returns [undefined] has it converted to the
    text ["undefined"]. *)
Definition to_text (o : option string) : string :=
  match o with
  | Some s => s
  | None => "undefined"
  end.

(** [Array.prototype.join]: the loop of the language definition, which puts
    the separator before every element but the first. *)
Definition join_step (sep : string) (acc : nat * string) (x : string)
  : nat * string :=
  let '(k, R) := acc in
  (S k, (if (k =? 0)%nat then R else R ++ sep) ++ x).

Definition join (sep : string) (l : list string) : string :=
  snd (fold_left (join_step sep) l (0, EmptyString)).

(** [p] stripped from the front of [s], when [s] starts with [p]. *)
Fixpoint strip_prefix (p s : string) : option string :=
  match p, s with
  | EmptyString, _ => Some s
  | String a p', String b s' =>
      if Ascii.eqb a b then strip_prefix p' s' else None
  | String _ _, EmptyString => None
  end.

End Js.

(** ** Data of the hosting API *)

Record Tag := { name : string }.

Record Author := { login : option string }.

Record CommitData := { message : string }.

(** One entry of [compareCommits(...).data.commits]; [author] is [None] for
    a commit with no linked account. *)
Record Commit := {
  sha : string;
  commit : CommitData;
  author : option Author
}.

(** ** Template formatter *)

(** The four alternatives of the pattern
    [/({{message}})|({{messageHeadline}})|({{author}})|({{sha}})/g], in the
    order the pattern lists them. *)
Inductive placeholder := TMessage | TMessageHeadline | TAuthor | TSha.

Definition token_text (k : placeholder) : string :=
  match k with
  | TMessage => "{{message}}"
  | TMessageHeadline => "{{messageHeadline}}"
  | TAuthor => "{{author}}"
  | TSha => "{{sha}}"
  end.

Definition alternatives : list placeholder :=
  [TMessage; TMessageHeadline; TAuthor; TSha].

(** The result of one successful match: the matched text, the four capture
    groups (a group that did not take part is [undefined]) and the input
    after the match. *)
Record regex_match := {
  matched : string;
  group1 : option string;
  group2 : option string;
  group3 : option string;
  group4 : option string;
  rest : string
}.

Definition captures (k : placeholder) (remaining : string) : regex_match :=
  let m := token_text k in
  match k with
  | TMessage => Build_regex_match m (Some m) None None None remaining
  | TMessageHeadline => Build_regex_match m None (Some m) None None remaining
  | TAuthor => Build_regex_match m None None (Some m) None remaining
  | TSha => Build_regex_match m None None None (Some m) remaining
  end.

(** The alternatives are tried from left to right at the current position;
    the first one that matches wins. *)
Fixpoint first_alternative (alts : list placeholder) (s : string)
  : option (placeholder * string) :=
  match alts with
  | [] => None
  | k :: ks =>
      match Js.strip_prefix (token_text k) s with
      | Some remaining => Some (k, remaining)
      | None => first_alternative ks s
      end
  end.

Definition match_here (s : string) : option regex_match :=
  match first_alternative alternatives s with
  | Some (k, remaining) => Some (captures k remaining)
  | None => None
  end.

Lemma strip_prefix_length p s r :
  Js.strip_prefix p s = Some r -> String.length s = String.length p + String.length r.
Proof.
  revert s; induction p as [|a p IH]; intros s H; simpl in *.
  - inversion H; reflexivity.
  - destruct s as [|b s]; [discriminate|].
    destruct (Ascii.eqb a b); [|discriminate].
    simpl. rewrite (IH _ H). reflexivity.
Qed.

Lemma first_alternative_shorter alts s k r :
  (forall k', In k' alts -> 0 < String.length (token_text k')) ->
  first_alternative alts s = Some (k, r) -> String.length r < String.length s.
Proof.
  induction alts as [|k' ks IH]; intros Hpos H; simpl in H; [discriminate|].
  destruct (Js.strip_prefix (token_text k') s) eqn:E.
  - inversion H; subst.
    apply strip_prefix_length in E.
    specialize (Hpos k (or_introl eq_refl)). lia.
  - apply IH; auto. intros; apply Hpos; right; assumption.
Qed.

Lemma match_here_shorter s m :
  match_here s = Some m -> String.length (rest m) < String.length s.
Proof.
  unfold match_here.
  destruct (first_alternative alternatives s) as [[k r]|] eqn:E; [|discriminate].
  intros H; inversion H; subst.
  assert (String.length r < String.length s).
  { eapply first_alternative_shorter; [|exact E].
    intros k' _; destruct k'; simpl; lia. }
  destruct k; simpl; assumption.
Qed.

(** [s.replace(pattern, callback)] with the global flag: one scan of [s]
    from left to right.  Where the pattern matches, the callback's result is
    emitted and the scan resumes after the match; elsewhere the character is
    copied.  What the callback returns is never scanned again. *)
Equations? replace_global (callback : regex_match -> option string) (s : string)
  : string by wf (String.length s) lt :=
  replace_global callback s with inspect (match_here s) => {
    | exist _ (Some m) _ :=
        Js.to_text (callback m) ++ replace_global callback (rest m);
    | exist _ None _ with s => {
        | EmptyString := EmptyString;
        | String a s' := String a (replace_global callback s') } }.
Proof.
  apply match_here_shorter; assumption.
Qed.

(** The callback of [formatCommit]. *)
Definition replacer (c : Commit) (m : regex_match) : option string :=
  if Js.truthy_opt (group1 m) then Some (message (commit c))
  else if Js.truthy_opt (group2 m) then
    Js.first (Js.split Js.LF (message (commit c)))
  else if Js.truthy_opt (group3 m) then
    Some (match author c with
          | Some a => match login a with Some l => l | None => EmptyString end
          | None => EmptyString
          end)
  else if Js.truthy_opt (group4 m) then Some (sha c)
  else Some (matched m).

Definition formatCommit (c : Commit) (structure : string) : string :=
  replace_global (replacer c) structure.

(** ** Effects: the trace of calls and thrown values *)

(** A value thrown by JavaScript code: an [Error] object with its message,
    or anything else, kept as the text [String(error)] gives. *)
Inductive thrown :=
| ErrorObject (msg : string)
| NonError (text : string).

(** [error instanceof Error ? error.message : String(error)] *)
Definition describe (e : thrown) : string :=
  match e with
  | ErrorObject m => m
  | NonError t => t
  end.

Inductive outcome (A : Type) :=
| Returned (a : A)
| Thrown (e : thrown).
Arguments Returned {A} a.
Arguments Thrown {A} e.

(** What the program does to the outside: toolkit calls and requests to the
    hosting service, with their arguments. *)
Inductive event :=
| Debug (text : string)
| Info (text : string)
| Warning (text : string)
| SetOutput (key value : string)
| SetFailed (text : string)
| ListTags (owner repo : string) (per_page : nat)
| CompareCommits (owner repo base head : string)
| CreateTag (owner repo tag msg object type : string)
| CreateRef (owner repo ref sha_ : string).

Definition trace := list event.

(** An asynchronous function of the source, awaited where it is called:
    it extends the trace and returns or throws. *)
Definition Action (A : Type) : Type := trace -> outcome A * trace.

Definition ret {A} (a : A) : Action A := fun tr => (Returned a, tr).

Definition throw {A} (e : thrown) : Action A := fun tr => (Thrown e, tr).

Definition bind {A B} (m : Action A) (k : A -> Action B) : Action B :=
  fun tr =>
    match m tr with
    | (Returned a, tr') => k a tr'
    | (Thrown e, tr') => (Thrown e, tr')
    end.

Definition emit (ev : event) : Action unit :=
  fun tr => (Returned tt, (tr ++ [ev])%list).

(** A request to the host: it is recorded, then answers or rejects. *)
Definition request {A} (ev : event) (response : outcome A) : Action A :=
  fun tr => (response, (tr ++ [ev])%list).

(** [try { body } catch (error) { handler }] *)
Definition try_catch {A} (body : Action A) (handler : thrown -> Action A)
  : Action A :=
  fun tr =>
    match body tr with
    | (Returned a, tr') => (Returned a, tr')
    | (Thrown e, tr') => handler e tr'
    end.

(** A synchronous computation that may throw, run inside an action. *)
Definition lift {A} (o : outcome A) : Action A := fun tr => (o, tr).

Declare Scope action_scope.
Delimit Scope action_scope with action.
Notation "x <- c1 ;; c2" := (bind c1 (fun x => c2))
  (at level 61, c1 at next level, right associativity) : action_scope.
Notation "c1 ;; c2" := (bind c1 (fun _ => c2))
  (at level 61, right associativity) : action_scope.
Open Scope action_scope.

(** ** The hosting service and the process environment *)

Record TagObject := { data_tag : string; data_sha : string }.

Record Reference := { data_ref : string; data_url : string }.

(** The four endpoints the program consumes; each answers with its [data]
    or rejects. *)
Record Octokit := {
  listTags : string -> string -> nat -> outcome (list Tag);
  compareCommits : string -> string -> string -> string -> outcome (list Commit);
  createTag :
    string -> string -> string -> string -> string -> string -> outcome TagObject;
  createRef : string -> string -> string -> string -> outcome Reference
}.

(** A value produced by [yaml.load]. *)
#[warnings="-register-all"]
Inductive yaml :=
| YUndefined
| YNull
| YBool (b : bool)
| YNumber (n : Z)
| YString (s : string)
| YArray (items : list yaml)
| YObject (fields : list (string * yaml)).

Record ProcessEnv := {
  GITHUB_TOKEN : option string;
  INPUT_GITHUB_TOKEN : option string;
  GITHUB_WORKSPACE : option string;
  GITHUB_SHA : option string
}.

(** Everything the action reads from its surroundings. *)
Record World := {
  env : ProcessEnv;
  getInput : string -> string;
  path_join : string -> string -> string -> string;
  existsSync : string -> bool;
  readFileSync : string -> outcome string;
  yaml_load : string -> outcome yaml;
  context_owner : string;
  context_repo : string;
  getOctokit : string -> Octokit
}.

Record ActionInputs := {
  packageRoot : string;
  tagPrefix : string;
  tagSuffix : string;
  tagMessage : string;
  changelogStructure : string
}.

(** [Partial<ActionOutputs>]: every key may be absent. *)
Record ActionOutputs := {
  tagname : option string;
  tagsha : option string;
  taguri : option string;
  tagmessage : option string;
  tagref : option string
}.

Definition no_outputs : ActionOutputs :=
  {| tagname := None; tagsha := None; taguri := None;
     tagmessage := None; tagref := None |}.

Record PubspecYaml := { version : string }.

Record EnvironmentVariables := {
  token : string;
  workspace : string;
  env_sha : string
}.

(** ** Functions of [src/main.ts] *)

(** [a || b] where either side may be undefined. *)
Definition or_undefined (a b : option string) : option string :=
  if Js.truthy_opt a then a else b.

Definition getEnvironmentVariables (e : ProcessEnv)
  : outcome EnvironmentVariables :=
  match or_undefined (GITHUB_TOKEN e) (INPUT_GITHUB_TOKEN e) with
  | Some tok =>
      if negb (Js.truthy tok) then Thrown (ErrorObject "GITHUB_TOKEN is required")
      else
        match GITHUB_WORKSPACE e with
        | Some ws =>
            if negb (Js.truthy ws)
            then Thrown (ErrorObject "GITHUB_WORKSPACE is not set")
            else
              match GITHUB_SHA e with
              | Some s =>
                  if negb (Js.truthy s)
                  then Thrown (ErrorObject "GITHUB_SHA is not set")
                  else Returned {| token := tok; workspace := ws; env_sha := s |}
              | None => Thrown (ErrorObject "GITHUB_SHA is not set")
              end
        | None => Thrown (ErrorObject "GITHUB_WORKSPACE is not set")
        end
  | None => Thrown (ErrorObject "GITHUB_TOKEN is required")
  end.

Definition default_structure : string := "**{{message}}** {{sha}})" ++ Js.nl.

Definition getActionInputs (w : World) : ActionInputs :=
  {| packageRoot := Js.or_else (getInput w "package_root") "./";
     tagPrefix := Js.or_else (getInput w "tag_prefix") EmptyString;
     tagSuffix := Js.or_else (getInput w "tag_suffix") EmptyString;
     tagMessage := Js.trim (getInput w "tag_message");
     changelogStructure :=
       Js.or_else (getInput w "changelog_structure") default_structure |}.

Definition with_default (o : option string) : string :=
  match o with
  | Some v => v
  | None => EmptyString
  end.

(** [{ ...defaults, ...outputs }] keeps the key order of [defaults]; every
    key is then published. *)
Definition setActionOutputs (outputs : ActionOutputs) : Action unit :=
  emit (SetOutput "tagname" (with_default (tagname outputs))) ;;
  emit (SetOutput "tagsha" (with_default (tagsha outputs))) ;;
  emit (SetOutput "taguri" (with_default (taguri outputs))) ;;
  emit (SetOutput "tagmessage" (with_default (tagmessage outputs))) ;;
  emit (SetOutput "tagref" (with_default (tagref outputs))).

Fixpoint lookup_field (key : string) (fields : list (string * yaml))
  : option yaml :=
  match fields with
  | [] => None
  | (k, v) :: fs => if String.eqb k key then Some v else lookup_field key fs
  end.

(** [!parsed] *)
Definition yaml_falsy (y : yaml) : bool :=
  match y with
  | YUndefined | YNull => true
  | YBool b => negb b
  | YNumber n => Z.eqb n 0
  | YString s => negb (Js.truthy s)
  | YArray _ | YObject _ => false
  end.

(** For a value that passed [!parsed]: [typeof parsed === 'object'] together
    with the fields that ['version' in parsed] and [parsed.version] look
    at.  An array has no such key. *)
Definition object_fields (y : yaml) : option (list (string * yaml)) :=
  match y with
  | YObject fields => Some fields
  | YArray _ => Some []
  | _ => None
  end.

Definition loadPubspec (w : World) (workspacePath packageRoot_ : string)
  : Action PubspecYaml :=
  let pubspecPath := path_join w workspacePath packageRoot_ "pubspec.yaml" in
  emit (Debug ("Looking for pubspec.yaml at: " ++ pubspecPath)) ;;
  if negb (existsSync w pubspecPath) then
    throw (ErrorObject ("pubspec.yaml does not exist at " ++ pubspecPath))
  else
    fileContents <- lift (readFileSync w pubspecPath) ;;
    parsed <- lift (yaml_load w fileContents) ;;
    if yaml_falsy parsed then
      throw (ErrorObject "Invalid pubspec.yaml: missing version field")
    else
      match object_fields parsed with
      | None => throw (ErrorObject "Invalid pubspec.yaml: missing version field")
      | Some fields =>
          match lookup_field "version" fields with
          | None =>
              throw (ErrorObject "Invalid pubspec.yaml: missing version field")
          | Some (YString v) =>
              if negb (Js.truthy v) then
                throw (ErrorObject
                         "Invalid pubspec.yaml: version must be a non-empty string")
              else ret {| version := v |}
          | Some _ =>
              throw (ErrorObject
                       "Invalid pubspec.yaml: version must be a non-empty string")
          end
      end.

Definition fetchExistingTags (github : Octokit) (owner repo : string)
  : Action (list Tag) :=
  try_catch
    (request (ListTags owner repo 100) (listTags github owner repo 100))
    (fun error =>
       emit (Debug ("No tags found: " ++ describe error)) ;;
       ret []).

(** [tags.some((tag) => tag.name === tagName)] *)
Definition tagExists (tags : list Tag) (tagName : string) : bool :=
  existsb (fun tag => String.eqb (name tag) tagName) tags.

Definition generateChangelog (github : Octokit)
  (owner repo baseTag headRef structure : string) : Action string :=
  commits <- request (CompareCommits owner repo baseTag headRef)
                     (compareCommits github owner repo baseTag headRef) ;;
  ret (Js.join Js.nl (map (fun c => formatCommit c structure) commits)).

Definition getTagMessage (github : Octokit) (owner repo : string)
  (providedMessage : string) (existingTags : list Tag)
  (changelogStructure_ version_ : string) : Action string :=
  if Js.truthy providedMessage then ret providedMessage
  else if (List.length existingTags =? 0)%nat then ret ("Version " ++ version_)
  else
    try_catch
      (match existingTags with
       | latestTag :: _ =>
           changelog <- generateChangelog github owner repo (name latestTag)
                          "main" changelogStructure_ ;;
           ret (Js.or_else changelog ("Version " ++ version_))
       | [] =>
           throw (ErrorObject
                    "Cannot read properties of undefined (reading 'name')")
       end)
      (fun error =>
         emit (Warning ("Failed to generate changelog: " ++ describe error)) ;;
         ret ("Version " ++ version_)).

Definition createGitTag (github : Octokit)
  (owner repo tagName message_ sha_ : string) : Action string :=
  response <- request (CreateTag owner repo tagName message_ sha_ "commit")
                      (createTag github owner repo tagName message_ sha_ "commit") ;;
  emit (Info ("Created tag object: " ++ data_tag response)) ;;
  ret (data_sha response).

Definition createGitReference (github : Octokit)
  (owner repo tagName sha_ : string) : Action Reference :=
  response <- request (CreateRef owner repo ("refs/tags/" ++ tagName) sha_)
                      (createRef github owner repo ("refs/tags/" ++ tagName) sha_) ;;
  emit (Info ("Created reference: " ++ data_ref response ++ " at "
              ++ data_url response)) ;;
  ret {| data_ref := data_ref response; data_url := data_url response |}.

(** The full tag name: prefix, version and suffix, in that order. *)
Definition tagNameOf (inputs : ActionInputs) (version_ : string) : string :=
  tagPrefix inputs ++ version_ ++ tagSuffix inputs.

Definition createVersionTag (w : World) : Action unit :=
  vars <- lift (getEnvironmentVariables (env w)) ;;
  let inputs := getActionInputs w in
  pubspec <- loadPubspec w (workspace vars) (packageRoot inputs) ;;
  let version_ := version pubspec in
  emit (Info ("Detected version: " ++ version_)) ;;
  emit (SetOutput "version" version_) ;;
  let github := getOctokit w (token vars) in
  let owner := context_owner w in
  let repo := context_repo w in
  emit (Debug ("Repository: " ++ owner ++ "/" ++ repo)) ;;
  existingTags <- fetchExistingTags github owner repo ;;
  let tagName := tagNameOf inputs version_ in
  if tagExists existingTags tagName then
    emit (Warning ("Tag " ++ Js.quote ++ tagName ++ Js.quote
                   ++ " already exists. Skipping tag creation.")) ;;
    setActionOutputs
      {| tagname := Some EmptyString; tagsha := None; taguri := None;
         tagmessage := None; tagref := None |}
  else
    tagMessage_ <- getTagMessage github owner repo (tagMessage inputs)
                     existingTags (changelogStructure inputs) version_ ;;
    tagSha <- createGitTag github owner repo tagName tagMessage_ (env_sha vars) ;;
    reference <- createGitReference github owner repo tagName tagSha ;;
    setActionOutputs
      {| tagname := Some tagName; tagsha := Some tagSha;
         taguri := Some (data_url reference);
         tagmessage := Some tagMessage_;
         tagref := Some (data_ref reference) |} ;;
    emit (Info ("Successfully created tag: " ++ tagName)).

(** The entry point: any thrown value becomes a failure of the step. *)
Definition run (w : World) : Action unit :=
  try_catch (createVersionTag w)
    (fun error =>
       let message_ := describe error in
       emit (SetFailed message_) ;;
       setActionOutputs no_outputs).

(** ** Vocabulary of the specification *)

(** [p] occurs in [s] as a run of consecutive characters. *)
Definition occurs (p s : string) : Prop :=
  exists before after, s = before ++ p ++ after.

(** A text in which none of the four placeholders occurs. *)
Definition no_placeholder (s : string) : Prop :=
  forall k, ~ occurs (token_text k) s.

(** The text of [s] before its first line feed; all of [s] when it has
    none. *)
Fixpoint first_line (s : string) : string :=
  match s with
  | EmptyString => EmptyString
  | String a s' => if Ascii.eqb a Js.LF then EmptyString else String a (first_line s')
  end.

(** The commit field a placeholder names, as the specification lists
    them. *)
Definition field_value (c : Commit) (k : placeholder) : string :=
  match k with
  | TMessage => message (commit c)
  | TMessageHeadline => first_line (message (commit c))
  | TAuthor =>
      match author c with
      | Some {| login := Some l |} => l
      | _ => EmptyString
      end
  | TSha => sha c
  end.

(** [s.includes(p)]: whether [p] occurs in [s], decided by a scan. *)
Fixpoint includes (s p : string) : bool :=
  match Js.strip_prefix p s with
  | Some _ => true
  | None =>
      match s with
      | EmptyString => false
      | String _ s' => includes s' p
      end
  end.

(** The value last published under an output key. *)
Fixpoint output_of (key : string) (tr : trace) : option string :=
  match tr with
  | [] => None
  | ev :: tr' =>
      match output_of key tr' with
      | Some v => Some v
      | None =>
          match ev with
          | SetOutput k v => if String.eqb k key then Some v else None
          | _ => None
          end
      end
  end.

(** The two calls that change the repository. *)
Definition is_mutation (ev : event) : bool :=
  match ev with
  | CreateTag _ _ _ _ _ _ | CreateRef _ _ _ _ => true
  | _ => false
  end.

Definition is_failure (ev : event) : bool :=
  match ev with
  | SetFailed _ => true
  | _ => false
  end.

(** The texts the run reports: log lines, the failure reason and the
    published output values. *)
Fixpoint diagnostics (tr : trace) : list string :=
  match tr with
  | [] => []
  | ev :: tr' =>
      match ev with
      | Debug t | Info t | Warning t | SetFailed t => t :: diagnostics tr'
      | SetOutput _ v => v :: diagnostics tr'
      | _ => diagnostics tr'
      end
  end.

(** The tag list [fetchExistingTags] hands back: the first page, or nothing
    when the listing is rejected. *)
Definition fetched_tags (github : Octokit) (owner repo : string) : list Tag :=
  match listTags github owner repo 100 with
  | Returned data => data
  | Thrown _ => []
  end.

(** An action whose outcome does not depend on the trace it starts from and
    which only adds events at the end of it. *)
Definition appends {A : Type} (m : Action A) : Prop :=
  forall tr, m tr = (fst (m []), (tr ++ snd (m []))%list).

(** The five outputs published with their empty defaults. *)
Definition empty_outputs : list event :=
  [SetOutput "tagname" EmptyString; SetOutput "tagsha" EmptyString;
   SetOutput "taguri" EmptyString; SetOutput "tagmessage" EmptyString;
   SetOutput "tagref" EmptyString].

(** What the entry point does with a thrown value. *)
Definition failure_events (e : thrown) : list event :=
  SetFailed (describe e) :: empty_outputs.

(** The debug line of [loadPubspec]. *)
Definition manifest_events (w : World) (vars : EnvironmentVariables)
  : list event :=
  [Debug ("Looking for pubspec.yaml at: "
          ++ path_join w (workspace vars) (packageRoot (getActionInputs w))
               "pubspec.yaml")].

(** The events between reading the manifest and listing the tags. *)
Definition version_events (w : World) (pubspec : PubspecYaml) : list event :=
  [Info ("Detected version: " ++ version pubspec);
   SetOutput "version" (version pubspec);
   Debug ("Repository: " ++ context_owner w ++ "/" ++ context_repo w)].

(** The listing request, with the debug line of a rejected listing. *)
Definition listing_events (github : Octokit) (owner repo : string)
  : list event :=
  ListTags owner repo 100 ::
  match listTags github owner repo 100 with
  | Returned _ => []
  | Thrown e => [Debug ("No tags found: " ++ describe e)]
  end.

(** The ways a run can go, each with the events it leaves, read off
    [createVersionTag] and [run]. *)
Inductive run_path (w : World) : list event -> Prop :=
| path_environment_error e :
    getEnvironmentVariables (env w) = Thrown e ->
    run_path w (failure_events e)
| path_manifest_error vars e :
    getEnvironmentVariables (env w) = Returned vars ->
    fst (loadPubspec w (workspace vars) (packageRoot (getActionInputs w)) [])
    = Thrown e ->
    run_path w (manifest_events w vars ++ failure_events e)%list
| path_tag_exists vars pubspec :
    getEnvironmentVariables (env w) = Returned vars ->
    fst (loadPubspec w (workspace vars) (packageRoot (getActionInputs w)) [])
    = Returned pubspec ->
    tagExists
      (fetched_tags (getOctokit w (token vars)) (context_owner w) (context_repo w))
      (tagNameOf (getActionInputs w) (version pubspec)) = true ->
    run_path w
      (manifest_events w vars ++ version_events w pubspec
       ++ listing_events (getOctokit w (token vars)) (context_owner w)
            (context_repo w)
       ++ Warning ("Tag " ++ Js.quote
                   ++ tagNameOf (getActionInputs w) (version pubspec)
                   ++ Js.quote ++ " already exists. Skipping tag creation.")
          :: empty_outputs)%list
| path_tag_rejected vars pubspec text added e :
    getEnvironmentVariables (env w) = Returned vars ->
    fst (loadPubspec w (workspace vars) (packageRoot (getActionInputs w)) [])
    = Returned pubspec ->
    tagExists
      (fetched_tags (getOctokit w (token vars)) (context_owner w) (context_repo w))
      (tagNameOf (getActionInputs w) (version pubspec)) = false ->
    getTagMessage (getOctokit w (token vars)) (context_owner w) (context_repo w)
      (tagMessage (getActionInputs w))
      (fetched_tags (getOctokit w (token vars)) (context_owner w) (context_repo w))
      (changelogStructure (getActionInputs w)) (version pubspec) []
    = (Returned text, added) ->
    createTag (getOctokit w (token vars)) (context_owner w) (context_repo w)
      (tagNameOf (getActionInputs w) (version pubspec)) text (env_sha vars)
      "commit" = Thrown e ->
    run_path w
      (manifest_events w vars ++ version_events w pubspec
       ++ listing_events (getOctokit w (token vars)) (context_owner w)
            (context_repo w)
       ++ added
       ++ CreateTag (context_owner w) (context_repo w)
            (tagNameOf (getActionInputs w) (version pubspec)) text
            (env_sha vars) "commit"
          :: failure_events e)%list
| path_reference_rejected vars pubspec text added obj e :
    getEnvironmentVariables (env w) = Returned vars ->
    fst (loadPubspec w (workspace vars) (packageRoot (getActionInputs w)) [])
    = Returned pubspec ->
    tagExists
      (fetched_tags (getOctokit w (token vars)) (context_owner w) (context_repo w))
      (tagNameOf (getActionInputs w) (version pubspec)) = false ->
    getTagMessage (getOctokit w (token vars)) (context_owner w) (context_repo w)
      (tagMessage (getActionInputs w))
      (fetched_tags (getOctokit w (token vars)) (context_owner w) (context_repo w))
      (changelogStructure (getActionInputs w)) (version pubspec) []
    = (Returned text, added) ->
    createTag (getOctokit w (token vars)) (context_owner w) (context_repo w)
      (tagNameOf (getActionInputs w) (version pubspec)) text (env_sha vars)
      "commit" = Returned obj ->
    createRef (getOctokit w (token vars)) (context_owner w) (context_repo w)
      ("refs/tags/" ++ tagNameOf (getActionInputs w) (version pubspec))
      (data_sha obj) = Thrown e ->
    run_path w
      (manifest_events w vars ++ version_events w pubspec
       ++ listing_events (getOctokit w (token vars)) (context_owner w)
            (context_repo w)
       ++ added
       ++ CreateTag (context_owner w) (context_repo w)
            (tagNameOf (getActionInputs w) (version pubspec)) text
            (env_sha vars) "commit"
          :: Info ("Created tag object: " ++ data_tag obj)
          :: CreateRef (context_owner w) (context_repo w)
               ("refs/tags/" ++ tagNameOf (getActionInputs w) (version pubspec))
               (data_sha obj)
          :: failure_events e)%list
| path_created vars pubspec text added obj reference :
    getEnvironmentVariables (env w) = Returned vars ->
    fst (loadPubspec w (workspace vars) (packageRoot (getActionInputs w)) [])
    = Returned pubspec ->
    tagExists
      (fetched_tags (getOctokit w (token vars)) (context_owner w) (context_repo w))
      (tagNameOf (getActionInputs w) (version pubspec)) = false ->
    getTagMessage (getOctokit w (token vars)) (context_owner w) (context_repo w)
      (tagMessage (getActionInputs w))
      (fetched_tags (getOctokit w (token vars)) (context_owner w) (context_repo w))
      (changelogStructure (getActionInputs w)) (version pubspec) []
    = (Returned text, added) ->
    createTag (getOctokit w (token vars)) (context_owner w) (context_repo w)
      (tagNameOf (getActionInputs w) (version pubspec)) text (env_sha vars)
      "commit" = Returned obj ->
    createRef (getOctokit w (token vars)) (context_owner w) (context_repo w)
      ("refs/tags/" ++ tagNameOf (getActionInputs w) (version pubspec))
      (data_sha obj) = Returned reference ->
    run_path w
      (manifest_events w vars ++ version_events w pubspec
       ++ listing_events (getOctokit w (token vars)) (context_owner w)
            (context_repo w)
       ++ added
       ++ [CreateTag (context_owner w) (context_repo w)
             (tagNameOf (getActionInputs w) (version pubspec)) text
             (env_sha vars) "commit";
           Info ("Created tag object: " ++ data_tag obj);
           CreateRef (context_owner w) (context_repo w)
             ("refs/tags/" ++ tagNameOf (getActionInputs w) (version pubspec))
             (data_sha obj);
           Info ("Created reference: " ++ data_ref reference ++ " at "
                 ++ data_url reference);
           SetOutput "tagname" (tagNameOf (getActionInputs w) (version pubspec));
           SetOutput "tagsha" (data_sha obj);
           SetOutput "taguri" (data_url reference);
           SetOutput "tagmessage" text;
           SetOutput "tagref" (data_ref reference);
           Info ("Successfully created tag: "
                 ++ tagNameOf (getActionInputs w) (version pubspec))])%list.

(** The four kinds of request the program sends. *)
Inductive request_kind :=
| Listing
| Comparison
| TagCreation
| ReferenceCreation.

(** The requests of a trace, in the order they were sent. *)
Fixpoint requests (tr : trace) : list request_kind :=
  match tr with
  | [] => []
  | ev :: tr' =>
      match ev with
      | ListTags _ _ _ => Listing :: requests tr'
      | CompareCommits _ _ _ _ => Comparison :: requests tr'
      | CreateTag _ _ _ _ _ _ => TagCreation :: requests tr'
      | CreateRef _ _ _ _ => ReferenceCreation :: requests tr'
      | _ => requests tr'
      end
  end.

(** ** Sample inputs *)

Definition commit_fix_bug : Commit :=
  {| sha := "0a1b2c3";
     commit := {| message := "fix: bug" ++ Js.nl ++ Js.nl ++ "Details here" |};
     author := None |}.

Definition commit_quoting_sha : Commit :=
  {| sha := "0a1b2c3";
     commit := {| message := "document {{sha}} in the README" |};
     author := Some {| login := Some "octocat" |} |}.

Definition commit_feature : Commit :=
  {| sha := "1111111";
     commit := {| message := "feat: add tagging" |};
     author := Some {| login := Some "octocat" |} |}.

Definition commit_fix : Commit :=
  {| sha := "2222222";
     commit := {| message := "fix: trim input" |};
     author := None |}.

(** A host whose comparison answers with two commits and whose other
    endpoints reject. *)
Definition comparing_host : Octokit :=
  {| listTags := fun _ _ _ => Thrown (ErrorObject "Not Found");
     compareCommits := fun _ _ _ _ => Returned [commit_feature; commit_fix];
     createTag := fun _ _ _ _ _ _ => Thrown (ErrorObject "Not Found");
     createRef := fun _ _ _ _ => Thrown (ErrorObject "Not Found") |}.

(** A host that rejects every request. *)
Definition rejecting_host : Octokit :=
  {| listTags := fun _ _ _ => Thrown (ErrorObject "Not Found");
     compareCommits := fun _ _ _ _ => Thrown (ErrorObject "Not Found");
     createTag := fun _ _ _ _ _ _ => Thrown (ErrorObject "Not Found");
     createRef := fun _ _ _ _ => Thrown (ErrorObject "Not Found") |}.

(** A host whose comparison finds no commit. *)
Definition quiet_host : Octokit :=
  {| listTags := fun _ _ _ => Returned [];
     compareCommits := fun _ _ _ _ => Returned [];
     createTag := fun _ _ _ _ _ _ => Thrown (ErrorObject "Not Found");
     createRef := fun _ _ _ _ => Thrown (ErrorObject "Not Found") |}.

(** The surroundings of a run in a checked-out workspace whose manifest
    declares version 2.3.4, with [v] as the tag prefix. *)
Definition demo_env : ProcessEnv :=
  {| GITHUB_TOKEN := Some "secret";
     INPUT_GITHUB_TOKEN := None;
     GITHUB_WORKSPACE := Some "/work";
     GITHUB_SHA := Some "c0ffee0" |}.

Definition demo_world (github : Octokit) : World :=
  {| env := demo_env;
     getInput := fun key => if String.eqb key "tag_prefix" then "v" else EmptyString;
     path_join := fun root _ file => root ++ "/" ++ file;
     existsSync := fun p => String.eqb p "/work/pubspec.yaml";
     readFileSync := fun _ => Returned "version: 2.3.4";
     yaml_load := fun _ => Returned (YObject [("version", YString "2.3.4")]);
     context_owner := "octo";
     context_repo := "demo";
     getOctokit := fun _ => github |}.

Definition demo_vars : EnvironmentVariables :=
  {| token := "secret"; workspace := "/work"; env_sha := "c0ffee0" |}.

(** A host on which the tag of the manifest's version already exists. *)
Definition tagged_host : Octokit :=
  {| listTags := fun _ _ _ => Returned [{| name := "v2.3.4" |}; {| name := "v2.3.3" |}];
     compareCommits := fun _ _ _ _ => Thrown (ErrorObject "Not Found");
     createTag := fun _ _ _ _ _ _ => Thrown (ErrorObject "Not Found");
     createRef := fun _ _ _ _ => Thrown (ErrorObject "Not Found") |}.

(** A host with no tag yet that creates the tag object and then rejects the
    reference. *)
Definition orphaning_host : Octokit :=
  {| listTags := fun _ _ _ => Returned [];
     compareCommits := fun _ _ _ _ => Thrown (ErrorObject "Not Found");
     createTag := fun _ _ tag _ _ _ =>
       Returned {| data_tag := tag; data_sha := "7a9e5d1f" |};
     createRef := fun _ _ _ _ => Thrown (ErrorObject "Reference already exists") |}.

(** A host with an older tag that accepts the new tag and its reference. *)
Definition creating_host : Octokit :=
  {| listTags := fun _ _ _ => Returned [{| name := "v2.3.3" |}];
     compareCommits := fun _ _ _ _ => Returned [commit_feature; commit_fix];
     createTag := fun _ _ tag _ _ _ =>
       Returned {| data_tag := tag; data_sha := "7a9e5d1f" |};
     createRef := fun _ _ ref _ =>
       Returned {| data_ref := ref;
                   data_url := "https://api.example/git/" ++ ref |} |}.

(** A host that cannot list tags and refuses to create the tag object. *)
Definition refusing_host : Octokit :=
  {| listTags := fun _ _ _ => Thrown (ErrorObject "Bad credentials");
     compareCommits := fun _ _ _ _ => Thrown (ErrorObject "Bad credentials");
     createTag := fun _ _ _ _ _ _ => Thrown (NonError "Resource not accessible");
     createRef := fun _ _ _ _ => Thrown (ErrorObject "Bad credentials") |}.

(** A world without a checked-out manifest. *)
Definition bare_world : World :=
  {| env := demo_env;
     getInput := fun _ => EmptyString;
     path_join := fun root _ file => root ++ "/" ++ file;
     existsSync := fun _ => false;
     readFileSync := fun _ => Thrown (ErrorObject "ENOENT");
     yaml_load := fun _ => Returned YUndefined;
     context_owner := "octo";
     context_repo := "demo";
     getOctokit := fun _ => rejecting_host |}.

(** A commit with no linked author account. *)
Definition commit_anonymous (message_ : string) : Commit :=
  {| sha := "3333333"; commit := {| message := message_ |}; author := None |}.

(** A host whose comparison answers with two such commits. *)
Definition anonymous_host : Octokit :=
  {| listTags := fun _ _ _ => Returned [{| name := "v1.0.0" |}];
     compareCommits := fun _ _ _ _ =>
       Returned [commit_anonymous "one"; commit_anonymous "two"];
     createTag := fun _ _ _ _ _ _ => Thrown (ErrorObject "Not Found");
     createRef := fun _ _ _ _ => Thrown (ErrorObject "Not Found") |}.

(** A world whose manifest gives the version as a number. *)
Definition numbered_world : World :=
  {| env := demo_env;
     getInput := fun _ => EmptyString;
     path_join := fun root _ file => root ++ "/" ++ file;
     existsSync := fun _ => true;
     readFileSync := fun _ => Returned "version: 2";
     yaml_load := fun _ => Returned (YObject [("version", YNumber 2)]);
     context_owner := "octo";
     context_repo := "demo";
     getOctokit := fun _ => rejecting_host |}.

(** * Properties *)

(** ** The scan performed by [replace_global] *)

Lemma replace_global_step cb s :
  replace_global cb s =
  match match_here s with
  | Some m => Js.to_text (cb m) ++ replace_global cb (rest m)
  | None => match s with
            | EmptyString => EmptyString
            | String a s' => String a (replace_global cb s')
            end
  end.
Proof.
  funelim (replace_global cb s).
  - rewrite e. reflexivity.
  - reflexivity.
  - rewrite e. reflexivity.
Qed.

Lemma strip_prefix_app p r : Js.strip_prefix p (p ++ r) = Some r.
Proof.
  induction p as [|a p IH]; simpl.
  - destruct r; reflexivity.
  - rewrite Ascii.eqb_refl. exact IH.
Qed.

Lemma strip_prefix_sound p s r : Js.strip_prefix p s = Some r -> s = p ++ r.
Proof.
  revert s; induction p as [|a p IH]; intros s H; simpl in *.
  - destruct s; inversion H; reflexivity.
  - destruct s as [|b s]; [discriminate|].
    destruct (Ascii.eqb a b) eqn:E; [|discriminate].
    apply Ascii.eqb_eq in E. subst b. f_equal. apply IH. exact H.
Qed.

Lemma app_assoc_s (a b c : string) : (a ++ b) ++ c = a ++ b ++ c.
Proof. induction a; simpl; congruence. Qed.

Lemma app_nil_r_s (a : string) : a ++ EmptyString = a.
Proof. induction a; simpl; congruence. Qed.

Lemma no_placeholder_tail a s : no_placeholder (String a s) -> no_placeholder s.
Proof.
  intros H k [b [t E]]. apply (H k). exists (String a b), t. simpl. congruence.
Qed.

Lemma match_here_token k r : match_here (token_text k ++ r) = Some (captures k r).
Proof. destruct k; reflexivity. Qed.

Lemma first_alternative_sound alts s k r :
  first_alternative alts s = Some (k, r) -> s = token_text k ++ r.
Proof.
  induction alts as [|k' ks IH]; simpl; [discriminate|].
  destruct (Js.strip_prefix (token_text k') s) eqn:E.
  - intros H; inversion H; subst. apply strip_prefix_sound. exact E.
  - exact IH.
Qed.

Lemma match_here_sound s m :
  match_here s = Some m ->
  exists k, m = captures k (rest m) /\ s = token_text k ++ rest m.
Proof.
  unfold match_here.
  destruct (first_alternative alternatives s) as [[k r]|] eqn:E; [|discriminate].
  intros H; inversion H; subst; clear H. exists k.
  apply first_alternative_sound in E.
  destruct k; simpl; auto.
Qed.

Lemma match_here_complete s k r : s = token_text k ++ r -> match_here s <> None.
Proof. intros ->. rewrite match_here_token. discriminate. Qed.

(** Two ways to cut the same text: the first cut falls inside the second
    part's left piece, or strictly inside its right piece. *)
Lemma app_eq_app_s (l t p r : string) :
  l ++ t = p ++ r ->
  (exists x, l = p ++ x /\ r = x ++ t) \/
  (exists y, y <> EmptyString /\ p = l ++ y /\ t = y ++ r).
Proof.
  revert p; induction l as [|a l IH]; intros p H; simpl in *.
  - destruct p as [|b p].
    + left. exists EmptyString. simpl in *. auto.
    + right. exists (String b p). repeat split; auto. discriminate.
  - destruct p as [|b p]; simpl in *.
    + left. exists (String a l). simpl. auto.
    + injection H as -> H. destruct (IH _ H) as [[x [-> ->]]|[y [Hy [-> ->]]]].
      * left. exists x. auto.
      * right. exists y. auto.
Qed.

(** A placeholder cannot begin inside a literal and end inside, or at the
    end of, the placeholder that follows it: its text has no brace pair
    past its first two characters. *)
Ltac peel_literal H lit :=
  destruct lit as [|? lit]; simpl in H;
  [ idtac
  | first [ discriminate H | injection H as ? H; subst; peel_literal H lit ] ].

Lemma no_straddle k' a lit y k r r0 :
  token_text k' = String a lit ++ y ->
  y <> EmptyString ->
  token_text k ++ r0 = y ++ r ->
  False.
Proof.
  intros H Hy Ht.
  destruct k'; simpl in H; injection H as ? H; subst;
    peel_literal H lit;
    subst; try (exfalso; apply Hy; reflexivity);
    destruct k; simpl in Ht; discriminate Ht.
Qed.

Lemma literal_no_match a lit t :
  no_placeholder (String a lit) ->
  (t = EmptyString \/ exists k r, t = token_text k ++ r) ->
  match_here (String a lit ++ t) = None.
Proof.
  intros Hfree Ht.
  destruct (match_here (String a lit ++ t)) as [m|] eqn:E; [exfalso|reflexivity].
  destruct (match_here_sound _ _ E) as [k' [_ Hs]].
  destruct (app_eq_app_s _ _ _ _ Hs) as [[x [Hl _]]|[y [Hy [Hp Hty]]]].
  - apply (Hfree k'). exists EmptyString, x. exact Hl.
  - destruct Ht as [->|[k [r ->]]].
    + destruct y; [apply Hy; reflexivity|discriminate].
    + eapply no_straddle; eauto.
Qed.

Lemma replace_global_literal cb lit t :
  no_placeholder lit ->
  (t = EmptyString \/ exists k r, t = token_text k ++ r) ->
  replace_global cb (lit ++ t) = lit ++ replace_global cb t.
Proof.
  intros Hfree Ht. induction lit as [|a lit IH]; [reflexivity|].
  rewrite replace_global_step, (literal_no_match _ _ _ Hfree Ht).
  simpl. f_equal. apply IH. eapply no_placeholder_tail; eauto.
Qed.

Lemma replace_global_token cb k r :
  replace_global cb (token_text k ++ r)
  = Js.to_text (cb (captures k r)) ++ replace_global cb r.
Proof.
  rewrite replace_global_step, match_here_token.
  destruct k; reflexivity.
Qed.

Lemma split_first sep s :
  Js.first (Js.split sep s) =
  Some ((fix go (t : string) : string :=
           match t with
           | EmptyString => EmptyString
           | String a t' => if Ascii.eqb a sep then EmptyString else String a (go t')
           end) s).
Proof.
  induction s as [|a s IH]; simpl; [reflexivity|].
  destruct (Ascii.eqb a sep); [reflexivity|].
  destruct (Js.split sep s) as [|piece pieces]; simpl in *.
  - discriminate IH.
  - injection IH as ->. reflexivity.
Qed.

Lemma replacer_captures c k r :
  Js.to_text (replacer c (captures k r)) = field_value c k.
Proof.
  destruct k; simpl; try reflexivity.
  - unfold replacer; simpl. rewrite split_first. reflexivity.
  - unfold replacer; simpl. destruct (author c) as [[[l|]]|]; reflexivity.
Qed.

Lemma formatCommit_token c k following :
  formatCommit c (token_text k ++ following)
  = field_value c k ++ formatCommit c following.
Proof.
  unfold formatCommit. rewrite replace_global_token, replacer_captures.
  reflexivity.
Qed.

Lemma formatCommit_literal c literal :
  no_placeholder literal -> formatCommit c literal = literal.
Proof.
  intros H. unfold formatCommit.
  rewrite <- (app_nil_r_s literal) at 1.
  rewrite replace_global_literal; auto.
  rewrite replace_global_step. simpl. apply app_nil_r_s.
Qed.

Lemma formatCommit_literal_token c literal k following :
  no_placeholder literal ->
  formatCommit c (literal ++ token_text k ++ following)
  = literal ++ field_value c k ++ formatCommit c following.
Proof.
  intros H. unfold formatCommit.
  rewrite replace_global_literal; eauto.
  f_equal. apply formatCommit_token.
Qed.

Lemma no_placeholder_empty : no_placeholder EmptyString.
Proof.
  intros k [b [t E]]. destruct b; [destruct k|]; discriminate E.
Qed.

Lemma no_placeholder_cons a s :
  match_here (String a s) = None -> no_placeholder s ->
  no_placeholder (String a s).
Proof.
  intros Hm Hs k [b [t E]]. destruct b as [|a' b]; simpl in E.
  - exact (match_here_complete _ _ _ E Hm).
  - injection E as _ E. apply (Hs k). exists b, t. exact E.
Qed.

Lemma no_placeholder_cons_prefix a literal t :
  match_here (String a (literal ++ t)) = None -> no_placeholder literal ->
  no_placeholder (String a literal).
Proof.
  intros Hm Hs k [b [u E]]. destruct b as [|a' b]; simpl in E.
  - apply (match_here_complete (String a (literal ++ t)) k (u ++ t)); auto.
    change (String a (literal ++ t)) with (String a literal ++ t).
    rewrite E, app_assoc_s. reflexivity.
  - injection E as _ E. apply (Hs k). exists b, u. exact E.
Qed.

(** Every template is free of placeholders or splits at its first one. *)
Lemma first_placeholder template :
  no_placeholder template \/
  exists literal k following,
    no_placeholder literal /\ template = literal ++ token_text k ++ following.
Proof.
  induction template as [|a s IH].
  - left. apply no_placeholder_empty.
  - destruct (match_here (String a s)) as [m|] eqn:E.
    + right. destruct (match_here_sound _ _ E) as [k [_ Hs]].
      exists EmptyString, k, (rest m). split; [apply no_placeholder_empty|exact Hs].
    + destruct IH as [Hs|[literal [k [following [Hl ->]]]]].
      * left. apply no_placeholder_cons; assumption.
      * right. exists (String a literal), k, following. split; [|reflexivity].
        eapply no_placeholder_cons_prefix; eauto.
Qed.

Lemma occurs_nl_cons a s :
  occurs Js.nl (String a s) <-> a = Js.LF \/ occurs Js.nl s.
Proof.
  split.
  - intros [b [t E]]. destruct b as [|a' b]; simpl in E.
    + injection E as -> _. left; reflexivity.
    + injection E as _ E. right. exists b, t. exact E.
  - intros [->|[b [t E]]].
    + exists EmptyString, s. reflexivity.
    + exists (String a b), t. rewrite E. reflexivity.
Qed.

Lemma first_line_no_newline s : ~ occurs Js.nl s -> first_line s = s.
Proof.
  induction s as [|a s IH]; intros H; simpl; [reflexivity|].
  destruct (Ascii.eqb a Js.LF) eqn:E.
  - exfalso. apply H, occurs_nl_cons. left. apply Ascii.eqb_eq. exact E.
  - f_equal. apply IH. intros Ho. apply H, occurs_nl_cons. right. exact Ho.
Qed.

Lemma first_line_app head tail :
  ~ occurs Js.nl head -> first_line (head ++ Js.nl ++ tail) = head.
Proof.
  induction head as [|a s IH]; intros H; simpl; [reflexivity|].
  destruct (Ascii.eqb a Js.LF) eqn:E.
  - exfalso. apply H, occurs_nl_cons. left. apply Ascii.eqb_eq. exact E.
  - f_equal. apply IH. intros Ho. apply H, occurs_nl_cons. right. exact Ho.
Qed.

(** ** Template formatter *)

(** C6. For every commit and template, the formatter leaves a template with
    no placeholder unchanged; any other template splits at its first
    placeholder into literal text that is copied character for character,
    the placeholder, which is replaced by the commit field it names, and a
    remainder that is formatted in the same way.  Only the four placeholders
    are recognized: text that merely looks like one stays as it is. *)
Theorem formatCommit_substitutes_exactly (c : Commit) (template : string) :
  ((no_placeholder template /\ formatCommit c template = template) \/
   (exists literal k following,
      no_placeholder literal /\
      template = literal ++ token_text k ++ following /\
      formatCommit c template
      = literal ++ field_value c k ++ formatCommit c following)) /\
  formatCommit c "{{foo}} {{SHA}} {message} {{ sha }}"
  = "{{foo}} {{SHA}} {message} {{ sha }}".
Proof.
  split.
  - destruct (first_placeholder template)
      as [Hfree|[literal [k [following [Hfree ->]]]]].
    + left. split; [exact Hfree|]. apply formatCommit_literal. exact Hfree.
    + right. exists literal, k, following. repeat split; auto.
      apply formatCommit_literal_token. exact Hfree.
  - unfold formatCommit.
    repeat (rewrite replace_global_step; simpl).
    reflexivity.
Qed.

(** C7. Substituting the headline placeholder yields the commit message up
    to, and not including, its first newline (the whole message when it has
    none); the message [fix: bug], blank line, [Details here] formats to
    [fix: bug].  Substituting the author placeholder yields the empty string
    when the commit has no linked author account. *)
Theorem formatCommit_headline_and_author (c : Commit) :
  (forall head tail,
      ~ occurs Js.nl head ->
      message (commit c) = head ++ Js.nl ++ tail ->
      formatCommit c "{{messageHeadline}}" = head) /\
  (~ occurs Js.nl (message (commit c)) ->
   formatCommit c "{{messageHeadline}}" = message (commit c)) /\
  formatCommit
    {| sha := sha c;
       commit := {| message := "fix: bug" ++ Js.nl ++ Js.nl ++ "Details here" |};
       author := author c |}
    "{{messageHeadline}}" = "fix: bug" /\
  (author c = None -> formatCommit c "{{author}}" = EmptyString).
Proof.
  assert (Hfmt : forall c' k, formatCommit c' (token_text k) = field_value c' k).
  { intros c' k. rewrite <- (app_nil_r_s (token_text k)).
    rewrite formatCommit_token. unfold formatCommit.
    rewrite replace_global_step. simpl. apply app_nil_r_s. }
  split; [|split; [|split]].
  - intros head tail Hhead Hmsg.
    etransitivity; [exact (Hfmt c TMessageHeadline)|]. simpl. rewrite Hmsg.
    apply first_line_app. exact Hhead.
  - intros Hnone. etransitivity; [exact (Hfmt c TMessageHeadline)|]. simpl.
    apply first_line_no_newline. exact Hnone.
  - etransitivity; [exact (Hfmt _ TMessageHeadline)|]. reflexivity.
  - intros Hauthor. etransitivity; [exact (Hfmt c TAuthor)|].
    simpl. rewrite Hauthor. reflexivity.
Qed.

Lemma formatCommit_headline_and_author_witness :
  formatCommit commit_fix_bug "{{messageHeadline}}" = "fix: bug" /\
  formatCommit commit_fix_bug "{{author}}" = EmptyString.
Proof.
  destruct (formatCommit_headline_and_author commit_fix_bug)
    as [Hhead [_ [_ Hauthor]]].
  split.
  - apply (Hhead "fix: bug" (Js.nl ++ "Details here")); [|reflexivity].
    intros [before [after E]].
    repeat (destruct before as [|? before]; simpl in E;
            [discriminate E | injection E as _ E]).
    destruct before; discriminate E.
  - apply Hauthor. reflexivity.
Defined.

(** C10. Substitution is a single pass: when the value substituted for a
    placeholder itself contains placeholder text, that text appears in the
    output as it is and is not replaced again. *)
Theorem formatCommit_single_pass
  (c : Commit) (k k' : placeholder) (before after following : string) :
  field_value c k = before ++ token_text k' ++ after ->
  formatCommit c (token_text k ++ following)
  = (before ++ token_text k' ++ after) ++ formatCommit c following.
Proof.
  intros Hvalue. rewrite formatCommit_token, Hvalue. reflexivity.
Qed.

Lemma formatCommit_single_pass_witness :
  formatCommit commit_quoting_sha "{{message}} ({{sha}})"
  = "document {{sha}} in the README (0a1b2c3)".
Proof.
  etransitivity;
    [exact (formatCommit_single_pass commit_quoting_sha TMessage TSha
              "document " " in the README" " ({{sha}})" eq_refl)|].
  unfold formatCommit.
  repeat (rewrite replace_global_step; simpl).
  reflexivity.
Defined.

(** ** Tag existence check *)

(** C8. The tag existence check is an exact, case-sensitive membership test:
    it answers true exactly when some listed tag has the candidate name,
    character for character; [v1.0.0] is found in a list holding [v1.0.0]
    and [V1.0.0] is not. *)
Theorem tagExists_exact_membership (tags : list Tag) (tagName : string) :
  (tagExists tags tagName = true <->
   exists tag, In tag tags /\ name tag = tagName) /\
  tagExists [{| name := "v1.0.0" |}] "v1.0.0" = true /\
  tagExists [{| name := "v1.0.0" |}] "V1.0.0" = false.
Proof.
  split; [|split; reflexivity].
  unfold tagExists. rewrite existsb_exists. split.
  - intros [tag [Hin Heq]]. exists tag. split; [exact Hin|].
    apply String.eqb_eq. exact Heq.
  - intros [tag [Hin Heq]]. exists tag. split; [exact Hin|].
    apply String.eqb_eq. exact Heq.
Qed.

(** ** Changelog generator *)

Lemma join_fold sep l k R :
  snd (fold_left (Js.join_step sep) l (S k, R))
  = R ++ fold_right (fun x acc => sep ++ x ++ acc) EmptyString l.
Proof.
  revert k R; induction l as [|x l IH]; intros k R; simpl.
  - symmetry. apply app_nil_r_s.
  - rewrite IH. rewrite !app_assoc_s. reflexivity.
Qed.

Lemma concat_cons sep x l :
  String.concat sep (x :: l)
  = x ++ fold_right (fun y acc => sep ++ y ++ acc) EmptyString l.
Proof.
  revert x; induction l as [|y l IH]; intros x.
  - symmetry. apply app_nil_r_s.
  - change (String.concat sep (x :: y :: l))
      with (x ++ sep ++ String.concat sep (y :: l)).
    rewrite (IH y). reflexivity.
Qed.

(** The loop of [join] computes the right-nested concatenation with
    separators between neighbours. *)
Lemma join_concat sep l : Js.join sep l = String.concat sep l.
Proof.
  unfold Js.join. destruct l as [|x l]; [reflexivity|].
  simpl fold_left. rewrite join_fold, concat_cons. reflexivity.
Qed.

Lemma concat_snoc sep l x :
  String.concat sep (l ++ [x])%list
  = match l with
    | [] => x
    | _ :: _ => String.concat sep l ++ sep ++ x
    end.
Proof.
  induction l as [|y l IH]; [reflexivity|].
  destruct l as [|z l]; [reflexivity|].
  change (String.concat sep (((y :: z :: l) ++ [x])%list))
    with (y ++ sep ++ String.concat sep ((z :: l) ++ [x])%list).
  rewrite IH.
  change (String.concat sep (y :: z :: l))
    with (y ++ sep ++ String.concat sep (z :: l)).
  rewrite !app_assoc_s. reflexivity.
Qed.

(** C9. When the comparison answers with a list of commits, the changelog
    is the formatted commits, each through the same template and in the
    order returned, with one newline between neighbours; the text ends with
    the last formatted commit, so no separator trails. *)
Theorem generateChangelog_maps_in_order
  (github : Octokit) (owner repo baseTag headRef structure : string)
  (commits : list Commit) (tr : trace) :
  compareCommits github owner repo baseTag headRef = Returned commits ->
  generateChangelog github owner repo baseTag headRef structure tr
  = (Returned
       (String.concat Js.nl (map (fun c => formatCommit c structure) commits)),
     (tr ++ [CompareCommits owner repo baseTag headRef])%list) /\
  (forall earlier final,
      commits = (earlier ++ [final])%list ->
      String.concat Js.nl (map (fun c => formatCommit c structure) commits)
      = match earlier with
        | [] => formatCommit final structure
        | _ :: _ =>
            String.concat Js.nl
              (map (fun c => formatCommit c structure) earlier)
            ++ Js.nl ++ formatCommit final structure
        end).
Proof.
  intros Hcompare. split.
  - unfold generateChangelog, bind, request, ret.
    rewrite Hcompare, join_concat. reflexivity.
  - intros earlier final ->. rewrite map_app. simpl map.
    rewrite concat_snoc. destruct earlier; reflexivity.
Qed.

Lemma generateChangelog_maps_in_order_witness :
  generateChangelog comparing_host "octo" "demo" "v1.0.0" "main"
    "{{messageHeadline}} by {{author}}" []
  = (Returned ("feat: add tagging by octocat" ++ Js.nl ++ "fix: trim input by "),
     [CompareCommits "octo" "demo" "v1.0.0" "main"]).
Proof.
  destruct (generateChangelog_maps_in_order comparing_host "octo" "demo"
              "v1.0.0" "main" "{{messageHeadline}} by {{author}}"
              [commit_feature; commit_fix] [] eq_refl) as [Hrun _].
  etransitivity; [exact Hrun|].
  unfold formatCommit. simpl map.
  repeat (rewrite replace_global_step; simpl).
  reflexivity.
Defined.

(** ** Tag message resolver *)

Lemma truthy_nonempty s : Js.truthy s = true <-> s <> EmptyString.
Proof.
  destruct s; simpl; split; intros H; try discriminate; try reflexivity.
  exfalso. apply H. reflexivity.
Qed.

Lemma trim_nonempty s : Js.trim s <> EmptyString -> Js.truthy s = true.
Proof.
  destruct s; simpl; intros H; [exfalso; apply H|]; reflexivity.
Qed.

Lemma or_else_nonempty a b : b <> EmptyString -> Js.or_else a b <> EmptyString.
Proof.
  unfold Js.or_else. destruct a; simpl; auto. discriminate.
Qed.

(** The resolver returns on every input, and never an empty text. *)
Lemma getTagMessage_returns
  (github : Octokit) (owner repo providedMessage : string)
  (existingTags : list Tag) (structure version_ : string) (tr : trace) :
  exists text added,
    getTagMessage github owner repo providedMessage existingTags
      structure version_ tr
    = (Returned text, (tr ++ added)%list) /\
    text <> EmptyString /\
    filter is_mutation added = [].
Proof.
  unfold getTagMessage.
  destruct (Js.truthy providedMessage) eqn:Hmsg.
  - exists providedMessage, []. rewrite app_nil_r.
    split; [reflexivity|split; [|reflexivity]].
    apply truthy_nonempty. exact Hmsg.
  - destruct existingTags as [|latest others]; simpl.
    + exists ("Version " ++ version_), []. rewrite app_nil_r.
      split; [reflexivity|split; [discriminate|reflexivity]].
    + unfold try_catch, generateChangelog, bind, request, ret, emit.
      destruct (compareCommits github owner repo (name latest) "main")
        as [commits|e].
      * eexists _, [_]. split; [reflexivity|split; [|reflexivity]].
        apply or_else_nonempty. discriminate.
      * eexists _, [_; _]. rewrite <- app_assoc. simpl.
        split; [reflexivity|split; [discriminate|reflexivity]].
Qed.

(** C1. The tag message resolver always returns, and what it returns is
    never empty, whatever the explicit message, the tag list, the template
    and the version.  When the comparison request is rejected it logs a
    warning and answers [Version] followed by the version, without throwing;
    when the generated changelog is empty it answers the same text. *)
Theorem getTagMessage_never_empty
  (github : Octokit) (owner repo providedMessage : string)
  (existingTags : list Tag) (structure version_ : string) (tr : trace) :
  (exists text added,
      getTagMessage github owner repo providedMessage existingTags
        structure version_ tr
      = (Returned text, (tr ++ added)%list) /\
      text <> EmptyString) /\
  (forall latest others e,
      providedMessage = EmptyString ->
      existingTags = latest :: others ->
      compareCommits github owner repo (name latest) "main" = Thrown e ->
      getTagMessage github owner repo providedMessage existingTags
        structure version_ tr
      = (Returned ("Version " ++ version_),
         (tr ++ [CompareCommits owner repo (name latest) "main";
                 Warning ("Failed to generate changelog: " ++ describe e)])%list)) /\
  (forall latest others commits,
      providedMessage = EmptyString ->
      existingTags = latest :: others ->
      compareCommits github owner repo (name latest) "main" = Returned commits ->
      Js.join Js.nl (map (fun c => formatCommit c structure) commits)
      = EmptyString ->
      getTagMessage github owner repo providedMessage existingTags
        structure version_ tr
      = (Returned ("Version " ++ version_),
         (tr ++ [CompareCommits owner repo (name latest) "main"])%list)).
Proof.
  split; [|split].
  - destruct (getTagMessage_returns github owner repo providedMessage
                existingTags structure version_ tr)
      as [text [added [Hrun [Htext _]]]].
    exists text, added. split; assumption.
  - intros latest others e -> -> Hcompare.
    unfold getTagMessage, try_catch, generateChangelog, bind, request, ret, emit.
    simpl. rewrite Hcompare. rewrite <- app_assoc. reflexivity.
  - intros latest others commits -> -> Hcompare Hempty.
    unfold getTagMessage, try_catch, generateChangelog, bind, request, ret, emit.
    simpl. rewrite Hcompare, Hempty. reflexivity.
Qed.

Lemma getTagMessage_never_empty_witness :
  getTagMessage rejecting_host "octo" "demo" EmptyString
    [{| name := "v1.0.0" |}] default_structure "1.1.0" []
  = (Returned "Version 1.1.0",
     [CompareCommits "octo" "demo" "v1.0.0" "main";
      Warning "Failed to generate changelog: Not Found"]) /\
  getTagMessage quiet_host "octo" "demo" EmptyString
    [{| name := "v1.0.0" |}] default_structure "1.1.0" []
  = (Returned "Version 1.1.0", [CompareCommits "octo" "demo" "v1.0.0" "main"]).
Proof.
  split.
  - destruct (getTagMessage_never_empty rejecting_host "octo" "demo" EmptyString
                [{| name := "v1.0.0" |}] default_structure "1.1.0" [])
      as [_ [Hfail _]].
    exact (Hfail {| name := "v1.0.0" |} [] (ErrorObject "Not Found")
             eq_refl eq_refl eq_refl).
  - destruct (getTagMessage_never_empty quiet_host "octo" "demo" EmptyString
                [{| name := "v1.0.0" |}] default_structure "1.1.0" [])
      as [_ [_ Hempty]].
    exact (Hempty {| name := "v1.0.0" |} [] [] eq_refl eq_refl eq_refl eq_refl).
Defined.

(** C4. An explicit message that is not empty after trimming is returned as
    it is, whatever the tags, the template and the version, and nothing is
    requested from the host: the trace is unchanged. *)
Theorem getTagMessage_explicit_message
  (github : Octokit) (owner repo providedMessage : string)
  (existingTags : list Tag) (structure version_ : string) (tr : trace) :
  Js.trim providedMessage <> EmptyString ->
  getTagMessage github owner repo providedMessage existingTags
    structure version_ tr
  = (Returned providedMessage, tr).
Proof.
  intros Hmsg. unfold getTagMessage.
  rewrite (trim_nonempty _ Hmsg). reflexivity.
Qed.

Lemma getTagMessage_explicit_message_witness :
  getTagMessage rejecting_host "octo" "demo" "hello"
    [{| name := "v1.0.0" |}] default_structure "1.1.0" []
  = (Returned "hello", []).
Proof.
  apply (getTagMessage_explicit_message rejecting_host "octo" "demo" "hello"
           [{| name := "v1.0.0" |}] default_structure "1.1.0" []).
  vm_compute. discriminate.
Defined.

(** C5. With no explicit message and no existing tag, the resolver returns
    [Version] followed by the version, for every version and template, and
    nothing is requested from the host: the trace is unchanged. *)
Theorem getTagMessage_no_existing_tags
  (github : Octokit) (owner repo structure version_ : string) (tr : trace) :
  getTagMessage github owner repo EmptyString [] structure version_ tr
  = (Returned ("Version " ++ version_), tr) /\
  getTagMessage github owner repo EmptyString [] structure "1.0.0" tr
  = (Returned "Version 1.0.0", tr).
Proof. split; reflexivity. Qed.

(** ** Orchestration *)

(** The outcome of [loadPubspec] does not depend on the trace, to which it
    adds one debug line. *)
Lemma loadPubspec_trace w ws root tr :
  loadPubspec w ws root tr
  = (fst (loadPubspec w ws root []),
     (tr ++ [Debug ("Looking for pubspec.yaml at: "
                    ++ path_join w ws root "pubspec.yaml")])%list).
Proof.
  unfold loadPubspec, bind, emit, throw, lift, ret. simpl.
  destruct (existsSync w (path_join w ws root "pubspec.yaml")); simpl;
    [|reflexivity].
  destruct (readFileSync w (path_join w ws root "pubspec.yaml"))
    as [contents|e]; [|reflexivity].
  destruct (yaml_load w contents) as [parsed|e]; [|reflexivity].
  destruct (yaml_falsy parsed); [reflexivity|].
  destruct (object_fields parsed) as [fields|]; [|reflexivity].
  destruct (lookup_field "version" fields) as [[| | | |v| |]|]; try reflexivity.
  destruct (Js.truthy v); reflexivity.
Qed.

(** [fetchExistingTags] never throws. *)
Lemma fetchExistingTags_trace github owner repo tr :
  fetchExistingTags github owner repo tr
  = (Returned (fetched_tags github owner repo),
     (tr ++ ListTags owner repo 100 ::
        match listTags github owner repo 100 with
        | Returned _ => []
        | Thrown e => [Debug ("No tags found: " ++ describe e)]
        end)%list).
Proof.
  unfold fetchExistingTags, fetched_tags, try_catch, request, bind, emit, ret.
  destruct (listTags github owner repo 100) as [data|e]; [reflexivity|].
  rewrite <- app_assoc. reflexivity.
Qed.

Ltac run_steps :=
  unfold run, createVersionTag, setActionOutputs, try_catch, bind, lift,
    emit, ret.

(** C3. Whenever the run gets as far as the existence check and the
    candidate name, prefix then version then suffix, is among the fetched
    tags, the [tagname] output is the empty string, neither the tag nor the
    reference creation is requested, and the run ends normally with no
    failure reported. *)
Theorem run_existing_tag_is_noop
  (w : World) (vars : EnvironmentVariables) (pubspec : PubspecYaml)
  (tr : trace) :
  getEnvironmentVariables (env w) = Returned vars ->
  fst (loadPubspec w (workspace vars) (packageRoot (getActionInputs w)) [])
  = Returned pubspec ->
  tagExists
    (fetched_tags (getOctokit w (token vars)) (context_owner w) (context_repo w))
    (tagPrefix (getActionInputs w) ++ version pubspec
     ++ tagSuffix (getActionInputs w)) = true ->
  exists added,
    run w tr = (Returned tt, (tr ++ added)%list) /\
    output_of "tagname" added = Some EmptyString /\
    filter is_mutation added = [] /\
    filter is_failure added = [].
Proof.
  intros Henv Hload Hexists. run_steps.
  rewrite Henv, loadPubspec_trace, Hload, fetchExistingTags_trace.
  unfold tagNameOf. rewrite Hexists.
  repeat (rewrite <- app_assoc; cbn [app]).
  eexists. split.
  - reflexivity.
  - destruct (listTags (getOctokit w (token vars)) (context_owner w)
                (context_repo w) 100); simpl; auto.
Qed.

Lemma run_existing_tag_is_noop_witness :
  exists added,
    run (demo_world tagged_host) [] = (Returned tt, ([] ++ added)%list) /\
    output_of "tagname" added = Some EmptyString /\
    filter is_mutation added = [] /\
    filter is_failure added = [].
Proof.
  apply (run_existing_tag_is_noop (demo_world tagged_host) demo_vars
           {| version := "2.3.4" |} []); reflexivity.
Defined.


(** C2. The run in which the tag object [7a9e5d1f] is created and the
    reference is then rejected: the failure is reported and nothing is
    rolled back, but the identity of the orphaned tag object appears in no
    log line, failure reason or output; the failure reason is the host's
    message alone. *)
Theorem run_reference_failure_omits_tag_object :
  run (demo_world orphaning_host) []
  = (Returned tt,
     [Debug "Looking for pubspec.yaml at: /work/pubspec.yaml";
      Info "Detected version: 2.3.4";
      SetOutput "version" "2.3.4";
      Debug "Repository: octo/demo";
      ListTags "octo" "demo" 100;
      CreateTag "octo" "demo" "v2.3.4" "Version 2.3.4" "c0ffee0" "commit";
      Info "Created tag object: v2.3.4";
      CreateRef "octo" "demo" "refs/tags/v2.3.4" "7a9e5d1f";
      SetFailed "Reference already exists";
      SetOutput "tagname" EmptyString;
      SetOutput "tagsha" EmptyString;
      SetOutput "taguri" EmptyString;
      SetOutput "tagmessage" EmptyString;
      SetOutput "tagref" EmptyString]) /\
  existsb (fun text => includes text "7a9e5d1f")
    (diagnostics (snd (run (demo_world orphaning_host) []))) = false.
Proof. split; vm_compute; reflexivity. Qed.

(** * Further properties of the program *)

(** ** Actions only extend the trace *)

Lemma appends_ret {A} (a : A) : appends (ret a).
Proof. intros tr. unfold ret. simpl. rewrite app_nil_r. reflexivity. Qed.

Lemma appends_throw {A} (e : thrown) : appends (@throw A e).
Proof. intros tr. unfold throw. simpl. rewrite app_nil_r. reflexivity. Qed.

Lemma appends_lift {A} (o : outcome A) : appends (lift o).
Proof. intros tr. unfold lift. simpl. rewrite app_nil_r. reflexivity. Qed.

Lemma appends_emit ev : appends (emit ev).
Proof. intros tr. reflexivity. Qed.

Lemma appends_request {A} ev (o : outcome A) : appends (request ev o).
Proof. intros tr. reflexivity. Qed.

Lemma appends_bind {A B} (m : Action A) (k : A -> Action B) :
  appends m -> (forall a, appends (k a)) -> appends (bind m k).
Proof.
  intros Hm Hk tr. unfold bind. rewrite (Hm tr).
  destruct (m []) as [[a|e] l]; simpl.
  - rewrite (Hk a (tr ++ l)%list), (Hk a l). simpl.
    rewrite app_assoc. reflexivity.
  - reflexivity.
Qed.

Lemma appends_try_catch {A} (body : Action A) (handler : thrown -> Action A) :
  appends body -> (forall e, appends (handler e)) ->
  appends (try_catch body handler).
Proof.
  intros Hb Hh tr. unfold try_catch. rewrite (Hb tr).
  destruct (body []) as [[a|e] l]; simpl.
  - reflexivity.
  - rewrite (Hh e (tr ++ l)%list), (Hh e l). simpl.
    rewrite app_assoc. reflexivity.
Qed.

Ltac appends_step :=
  first
    [ apply appends_ret | apply appends_throw | apply appends_lift
    | apply appends_emit | apply appends_request
    | apply appends_bind; [|intros ?]
    | apply appends_try_catch; [|intros ?]
    | match goal with
      | |- appends (if ?b then _ else _) => destruct b
      | |- appends (match ?x with _ => _ end) => destruct x
      end ].

Lemma appends_setActionOutputs outputs : appends (setActionOutputs outputs).
Proof. unfold setActionOutputs. repeat appends_step. Qed.

Lemma appends_loadPubspec w ws root : appends (loadPubspec w ws root).
Proof. unfold loadPubspec. repeat appends_step. Qed.

Lemma appends_fetchExistingTags github owner repo :
  appends (fetchExistingTags github owner repo).
Proof. unfold fetchExistingTags. repeat appends_step. Qed.

Lemma appends_generateChangelog github owner repo baseTag headRef structure :
  appends (generateChangelog github owner repo baseTag headRef structure).
Proof. unfold generateChangelog. repeat appends_step. Qed.

Lemma appends_getTagMessage github owner repo msg tags structure version_ :
  appends (getTagMessage github owner repo msg tags structure version_).
Proof.
  unfold getTagMessage.
  repeat first [apply appends_generateChangelog | appends_step].
Qed.

Lemma appends_createGitTag github owner repo tagName message_ sha_ :
  appends (createGitTag github owner repo tagName message_ sha_).
Proof. unfold createGitTag. repeat appends_step. Qed.

Lemma appends_createGitReference github owner repo tagName sha_ :
  appends (createGitReference github owner repo tagName sha_).
Proof. unfold createGitReference. repeat appends_step. Qed.

Lemma appends_createVersionTag w : appends (createVersionTag w).
Proof.
  unfold createVersionTag.
  repeat first
    [ apply appends_loadPubspec | apply appends_fetchExistingTags
    | apply appends_getTagMessage | apply appends_createGitTag
    | apply appends_createGitReference | apply appends_setActionOutputs
    | appends_step ].
Qed.

Lemma appends_run w : appends (run w).
Proof.
  unfold run.
  repeat first
    [ apply appends_createVersionTag | apply appends_setActionOutputs
    | appends_step ].
Qed.

(** ** The paths of a run *)

Lemma getTagMessage_from_empty github owner repo msg tags structure version_ :
  exists text added,
    getTagMessage github owner repo msg tags structure version_ []
    = (Returned text, added).
Proof.
  destruct (getTagMessage_returns github owner repo msg tags structure
              version_ []) as [text [added [H _]]].
  exists text, added. exact H.
Qed.

(** Every run returns normally and follows one of the six paths. *)
Lemma run_follows_path (w : World) (tr : trace) :
  exists events,
    run w tr = (Returned tt, (tr ++ events)%list) /\ run_path w events.
Proof.
  exists (snd (run w [])).
  rewrite (appends_run w tr).
  assert (H : fst (run w []) = Returned tt /\ run_path w (snd (run w []))).
  2:{ destruct H as [H1 H2]. rewrite H1. split; [reflexivity|exact H2]. }
  unfold run, createVersionTag, createGitTag, createGitReference,
    setActionOutputs, try_catch, bind, lift, emit, ret, request.
  destruct (getEnvironmentVariables (env w)) as [vars|e] eqn:Henv.
  2:{ split; [reflexivity|]. apply path_environment_error. exact Henv. }
  rewrite loadPubspec_trace.
  destruct (fst (loadPubspec w (workspace vars)
                   (packageRoot (getActionInputs w)) [])) as [pubspec|e] eqn:Hload.
  2:{ split; [reflexivity|]. cbn [fst snd].
      exact (path_manifest_error w vars e Henv Hload). }
  rewrite fetchExistingTags_trace.
  destruct (tagExists
              (fetched_tags (getOctokit w (token vars)) (context_owner w)
                 (context_repo w))
              (tagNameOf (getActionInputs w) (version pubspec))) eqn:Hexists.
  { split; [reflexivity|]. cbn [fst snd].
    repeat (rewrite <- app_assoc; cbn [app]).
    exact (path_tag_exists w vars pubspec Henv Hload Hexists). }
  rewrite (appends_getTagMessage _ _ _ _ _ _ _ _).
  destruct (getTagMessage_from_empty (getOctokit w (token vars))
              (context_owner w) (context_repo w) (tagMessage (getActionInputs w))
              (fetched_tags (getOctokit w (token vars)) (context_owner w)
                 (context_repo w))
              (changelogStructure (getActionInputs w)) (version pubspec))
    as [text [added Hmsg]].
  rewrite Hmsg. cbn [fst snd].
  destruct (createTag (getOctokit w (token vars)) (context_owner w)
              (context_repo w) (tagNameOf (getActionInputs w) (version pubspec))
              text (env_sha vars) "commit") as [obj|e] eqn:Htag.
  2:{ split; [reflexivity|].
      pose proof (path_tag_rejected w vars pubspec text added e
                    Henv Hload Hexists Hmsg Htag) as Hp.
      cbn [fst snd].
      repeat (rewrite <- app_assoc; cbn [app]).
      exact Hp. }
  destruct (createRef (getOctokit w (token vars)) (context_owner w)
              (context_repo w)
              ("refs/tags/" ++ tagNameOf (getActionInputs w) (version pubspec))
              (data_sha obj)) as [reference|e] eqn:Href.
  2:{ split; [reflexivity|].
      pose proof (path_reference_rejected w vars pubspec text added obj e
                    Henv Hload Hexists Hmsg Htag Href) as Hp.
      cbn [fst snd].
      repeat (rewrite <- app_assoc; cbn [app]).
      exact Hp. }
  split; [reflexivity|].
  pose proof (path_created w vars pubspec text added obj reference
                Henv Hload Hexists Hmsg Htag Href) as Hp.
  cbn [fst snd].
  repeat (rewrite <- app_assoc; cbn [app]).
  exact Hp.
Qed.

(** ** Reading the environment and the manifest *)

(** X1. [getEnvironmentVariables] succeeds exactly when a non-empty token,
    workspace and commit sha are available, and hands back those values;
    the token is [GITHUB_TOKEN], or [INPUT_GITHUB_TOKEN] when [GITHUB_TOKEN]
    is unset or empty. *)
Theorem getEnvironmentVariables_returns_iff
  (e : ProcessEnv) (vars : EnvironmentVariables) :
  getEnvironmentVariables e = Returned vars <->
  ((GITHUB_TOKEN e = Some (token vars) \/
    ((GITHUB_TOKEN e = None \/ GITHUB_TOKEN e = Some EmptyString) /\
     INPUT_GITHUB_TOKEN e = Some (token vars))) /\
   token vars <> EmptyString /\
   GITHUB_WORKSPACE e = Some (workspace vars) /\
   workspace vars <> EmptyString /\
   GITHUB_SHA e = Some (env_sha vars) /\
   env_sha vars <> EmptyString).
Proof.
  destruct e as [gt it ws sh], vars as [t w s].
  unfold getEnvironmentVariables, or_undefined. simpl.
  split.
  - intros H.
    destruct gt as [[|a g]|]; simpl in H;
      [destruct it as [[|b i]|]; simpl in H; try discriminate H
      | | destruct it as [[|b i]|]; simpl in H; try discriminate H];
      destruct ws as [[|c w']|]; simpl in H; try discriminate H;
      destruct sh as [[|d s']|]; simpl in H; try discriminate H;
      injection H as <- <- <-;
      repeat split; auto; discriminate.
  - intros [Htok [Ht [Hws [Hw [Hsh Hs]]]]].
    subst ws sh.
    destruct t as [|a t]; [exfalso; apply Ht; reflexivity|].
    destruct w as [|b w]; [exfalso; apply Hw; reflexivity|].
    destruct s as [|c s]; [exfalso; apply Hs; reflexivity|].
    destruct Htok as [->|[[->| ->] ->]]; reflexivity.
Qed.

(** X2. The three checks of [getEnvironmentVariables] are made in order: a
    missing or empty token is reported whatever else is set, then the
    workspace, then the commit sha. *)
Theorem getEnvironmentVariables_error_order (e : ProcessEnv) :
  (Js.truthy_opt (GITHUB_TOKEN e) = false ->
   Js.truthy_opt (INPUT_GITHUB_TOKEN e) = false ->
   getEnvironmentVariables e = Thrown (ErrorObject "GITHUB_TOKEN is required")) /\
  (Js.truthy_opt (GITHUB_TOKEN e) || Js.truthy_opt (INPUT_GITHUB_TOKEN e) = true ->
   Js.truthy_opt (GITHUB_WORKSPACE e) = false ->
   getEnvironmentVariables e
   = Thrown (ErrorObject "GITHUB_WORKSPACE is not set")) /\
  (Js.truthy_opt (GITHUB_TOKEN e) || Js.truthy_opt (INPUT_GITHUB_TOKEN e) = true ->
   Js.truthy_opt (GITHUB_WORKSPACE e) = true ->
   Js.truthy_opt (GITHUB_SHA e) = false ->
   getEnvironmentVariables e = Thrown (ErrorObject "GITHUB_SHA is not set")).
Proof.
  destruct e as [gt it ws sh].
  unfold getEnvironmentVariables, or_undefined. simpl.
  repeat split.
  - intros Hg Hi. rewrite Hg.
    destruct it as [[|b i]|]; simpl in *; try reflexivity. discriminate Hi.
  - intros Ht Hw.
    destruct gt as [[|a g]|]; simpl in *;
      try (destruct it as [[|b i]|]; simpl in *; try discriminate Ht);
      destruct ws as [[|c w']|]; simpl in *; try reflexivity;
      discriminate Hw.
  - intros Ht Hw Hs.
    destruct gt as [[|a g]|]; simpl in *;
      try (destruct it as [[|b i]|]; simpl in *; try discriminate Ht);
      destruct ws as [[|c w']|]; simpl in *; try discriminate Hw;
      destruct sh as [[|d s']|]; simpl in *; try reflexivity;
      discriminate Hs.
Qed.

Lemma getEnvironmentVariables_error_order_witness :
  getEnvironmentVariables
    {| GITHUB_TOKEN := Some EmptyString; INPUT_GITHUB_TOKEN := None;
       GITHUB_WORKSPACE := None; GITHUB_SHA := None |}
  = Thrown (ErrorObject "GITHUB_TOKEN is required") /\
  getEnvironmentVariables
    {| GITHUB_TOKEN := None; INPUT_GITHUB_TOKEN := Some "secret";
       GITHUB_WORKSPACE := Some EmptyString; GITHUB_SHA := None |}
  = Thrown (ErrorObject "GITHUB_WORKSPACE is not set").
Proof.
  split.
  - apply (proj1 (getEnvironmentVariables_error_order _)); reflexivity.
  - apply (proj1 (proj2 (getEnvironmentVariables_error_order _))); reflexivity.
Defined.

(** X3. [loadPubspec] returns a manifest exactly when the file exists, can
    be read and parses to an object (or array) whose [version] entry is a
    non-empty string, which is the version it returns; it never returns an
    empty version. *)
Theorem loadPubspec_returns_iff
  (w : World) (ws root : string) (tr : trace) (p : PubspecYaml) :
  fst (loadPubspec w ws root tr) = Returned p <->
  (existsSync w (path_join w ws root "pubspec.yaml") = true /\
   exists contents parsed fields,
     readFileSync w (path_join w ws root "pubspec.yaml") = Returned contents /\
     yaml_load w contents = Returned parsed /\
     object_fields parsed = Some fields /\
     lookup_field "version" fields = Some (YString (version p)) /\
     version p <> EmptyString).
Proof.
  unfold loadPubspec, bind, emit, throw, lift, ret. simpl.
  split.
  - destruct (existsSync w (path_join w ws root "pubspec.yaml")); simpl;
      [|discriminate].
    destruct (readFileSync w (path_join w ws root "pubspec.yaml"))
      as [contents|e]; [|discriminate].
    destruct (yaml_load w contents) as [parsed|e] eqn:Hparse; [|discriminate].
    destruct (yaml_falsy parsed); [discriminate|].
    destruct (object_fields parsed) as [fields|] eqn:Hfields; [|discriminate].
    destruct (lookup_field "version" fields) as [[| | | |v| |]|] eqn:Hlook;
      try discriminate.
    destruct v as [|a v]; simpl; [discriminate|].
    intros H. injection H as <-. split; [reflexivity|].
    exists contents, parsed, fields. simpl. repeat split; auto. discriminate.
  - intros [Hex [contents [parsed [fields [Hread [Hparse [Hfields [Hlook Hv]]]]]]]].
    rewrite Hex, Hread. simpl. rewrite Hparse.
    assert (Hfalsy : yaml_falsy parsed = false).
    { destruct parsed; simpl in *; try discriminate Hfields; reflexivity. }
    rewrite Hfalsy, Hfields, Hlook.
    destruct p as [v]. simpl in *.
    destruct v; [exfalso; apply Hv; reflexivity|reflexivity].
Qed.

(** ** What every run does *)

Lemma output_of_app key l1 l2 :
  output_of key (l1 ++ l2)%list
  = match output_of key l2 with
    | Some v => Some v
    | None => output_of key l1
    end.
Proof.
  induction l1 as [|ev l1 IH]; simpl.
  - destruct (output_of key l2); reflexivity.
  - rewrite IH. destruct (output_of key l2); reflexivity.
Qed.

(** The events of the tag message resolver: nothing, one comparison, or a
    comparison followed by a warning. *)
Lemma getTagMessage_events github owner repo msg tags structure version_
  text added :
  getTagMessage github owner repo msg tags structure version_ []
  = (Returned text, added) ->
  text <> EmptyString /\
  (added = [] \/
   (exists base, added = [CompareCommits owner repo base "main"]) \/
   (exists base warning,
       added = [CompareCommits owner repo base "main"; Warning warning])).
Proof.
  unfold getTagMessage.
  destruct (Js.truthy msg) eqn:Hmsg.
  - unfold ret. intros H. injection H as <- <-. split; [|left; reflexivity].
    apply truthy_nonempty. exact Hmsg.
  - destruct tags as [|latest others]; simpl.
    + unfold ret. intros H. injection H as <- <-.
      split; [discriminate|left; reflexivity].
    + unfold try_catch, generateChangelog, bind, request, ret, emit.
      destruct (compareCommits github owner repo (name latest) "main")
        as [commits|e]; simpl; intros H; injection H as <- <-.
      * split; [apply or_else_nonempty; discriminate|].
        right. left. exists (name latest). reflexivity.
      * split; [discriminate|].
        right. right. eexists _, _. reflexivity.
Qed.

Lemma run_added_unique w tr added :
  run w tr = (Returned tt, (tr ++ added)%list) -> run_path w added.
Proof.
  intros H. destruct (run_follows_path w tr) as [events [Hrun Hpath]].
  rewrite Hrun in H. injection H as H. apply app_inv_head in H.
  subst. exact Hpath.
Qed.

Ltac message_shapes :=
  match goal with
  | H : getTagMessage _ _ _ _ _ _ _ [] = (Returned ?text, ?added) |- _ =>
      let Htext := fresh "Htext" in
      destruct (getTagMessage_events _ _ _ _ _ _ _ _ _ H)
        as [Htext [->|[[? ->]|[? [? ->]]]]]
  end.

Ltac listing_cases :=
  unfold listing_events;
  match goal with
  | |- context [listTags ?g ?o ?r 100] => destruct (listTags g o r 100)
  end.

(** X4. A run never throws, and when it ends each of the five outputs
    [tagname], [tagsha], [taguri], [tagmessage] and [tagref] has been
    published, whatever happened on the way. *)
Theorem run_always_publishes_outputs (w : World) (tr : trace) :
  exists added,
    run w tr = (Returned tt, (tr ++ added)%list) /\
    forall key,
      In key ["tagname"; "tagsha"; "taguri"; "tagmessage"; "tagref"] ->
      exists value, output_of key added = Some value.
Proof.
  destruct (run_follows_path w tr) as [events [Hrun Hpath]].
  exists events. split; [exact Hrun|].
  intros key Hkey.
  destruct Hpath; repeat rewrite output_of_app;
    simpl in Hkey;
    repeat (destruct Hkey as [<-|Hkey]; [simpl; eauto|]);
    contradiction.
Qed.

Lemma requests_app l1 l2 :
  requests (l1 ++ l2)%list = (requests l1 ++ requests l2)%list.
Proof.
  induction l1 as [|ev l1 IH]; simpl; [reflexivity|].
  destruct ev; simpl; rewrite IH; reflexivity.
Qed.

(** Turn the events of a path into an explicit list. *)
Ltac concretize :=
  try message_shapes;
  unfold manifest_events, version_events, failure_events, empty_outputs,
    listing_events in *;
  try match goal with
      | |- context [listTags ?g ?o ?r 100] => destruct (listTags g o r 100)
      | H : context [listTags ?g ?o ?r 100] |- _ => destruct (listTags g o r 100)
      end;
  cbn [app] in *.

Ltac prefix_before l :=
  lazymatch l with
  | SetFailed _ :: _ => constr:(@nil event)
  | ?x :: ?l' => let p := prefix_before l' in constr:(x :: p)
  end.

(** X5. When a run reports a failure it does so once, as the last thing
    before publishing the five outputs, all of them empty. *)
Theorem run_failure_resets_outputs
  (w : World) (tr added : trace) (reason : string) :
  run w tr = (Returned tt, (tr ++ added)%list) ->
  In (SetFailed reason) added ->
  exists before,
    added = (before ++ SetFailed reason :: empty_outputs)%list /\
    filter is_failure before = [] /\
    forall key,
      In key ["tagname"; "tagsha"; "taguri"; "tagmessage"; "tagref"] ->
      output_of key added = Some EmptyString.
Proof.
  intros Hrun Hin. apply run_added_unique in Hrun.
  destruct Hrun; concretize; simpl in Hin;
    repeat (destruct Hin as [Hin|Hin]; try discriminate Hin);
    try contradiction;
    injection Hin as <-;
    match goal with
    | |- exists before, ?l = _ /\ _ =>
        let p := prefix_before l in exists p
    end;
    (split; [reflexivity|split; [reflexivity|]]);
    intros key Hkey; simpl in Hkey;
    repeat (destruct Hkey as [<-|Hkey]; [reflexivity|]);
    contradiction.
Qed.

Lemma run_failure_resets_outputs_witness :
  exists before,
    snd (run (demo_world orphaning_host) [])
    = (before ++ SetFailed "Reference already exists" :: empty_outputs)%list /\
    filter is_failure before = [] /\
    forall key,
      In key ["tagname"; "tagsha"; "taguri"; "tagmessage"; "tagref"] ->
      output_of key (snd (run (demo_world orphaning_host) []))
      = Some EmptyString.
Proof.
  apply (run_failure_resets_outputs (demo_world orphaning_host) []
           (snd (run (demo_world orphaning_host) []))
           "Reference already exists").
  - reflexivity.
  - vm_compute. do 8 right. left. reflexivity.
Defined.

(** X6. The requests of a run come in one of six sequences: none; the tag
    listing alone; the listing, at most one comparison and one tag creation;
    or those followed by one reference creation.  A tag is created at most
    once and a reference only after its tag object. *)
Theorem run_requests_in_order (w : World) (tr : trace) :
  exists added,
    run w tr = (Returned tt, (tr ++ added)%list) /\
    In (requests added)
      [[];
       [Listing];
       [Listing; TagCreation];
       [Listing; Comparison; TagCreation];
       [Listing; TagCreation; ReferenceCreation];
       [Listing; Comparison; TagCreation; ReferenceCreation]].
Proof.
  destruct (run_follows_path w tr) as [events [Hrun Hpath]].
  exists events. split; [exact Hrun|].
  destruct Hpath; concretize; simpl; auto 10.
Qed.

(** Bring the facts of a path together with what is assumed about the
    run: two answers of the same call are equal. *)
Ltac same_call :=
  repeat match goal with
    | H1 : ?x = Returned ?a, H2 : ?x = Returned ?b |- _ =>
        first [ constr_eq a b; clear H2
              | rewrite H1 in H2; injection H2 as H2;
                first [subst b | subst a] ]
    | H1 : ?x = Returned _, H2 : ?x = Thrown _ |- _ =>
        rewrite H1 in H2; discriminate H2
    | H1 : ?x = Thrown ?a, H2 : ?x = Thrown ?b |- _ =>
        first [ constr_eq a b; clear H2
              | rewrite H1 in H2; injection H2 as H2;
                first [subst b | subst a] ]
    | H1 : ?x = true, H2 : ?x = false |- _ =>
        rewrite H1 in H2; discriminate H2
    end.






(** X10. A failure of the configuration, whether of the environment or of
    the manifest, ends the run before anything is requested from the host:
    the failure is reported and no request is in the trace. *)
Theorem run_configuration_error_sends_nothing
  (w : World) (e : thrown) (tr : trace) :
  (getEnvironmentVariables (env w) = Thrown e \/
   exists vars,
     getEnvironmentVariables (env w) = Returned vars /\
     fst (loadPubspec w (workspace vars) (packageRoot (getActionInputs w)) [])
     = Thrown e) ->
  exists added,
    run w tr = (Returned tt, (tr ++ added)%list) /\
    In (SetFailed (describe e)) added /\
    requests added = [] /\
    output_of "version" added = None.
Proof.
  intros Hconfig.
  destruct (run_follows_path w tr) as [events [Hrun Hpath]].
  exists events. split; [exact Hrun|].
  destruct Hconfig as [Henv|[vars [Henv Hload]]];
    destruct Hpath; same_call; concretize; simpl; auto 10.
Qed.

Lemma run_configuration_error_sends_nothing_witness :
  exists added,
    run bare_world [] = (Returned tt, ([] ++ added)%list) /\
    In (SetFailed "pubspec.yaml does not exist at /work/pubspec.yaml") added /\
    requests added = [] /\
    output_of "version" added = None.
Proof.
  apply (run_configuration_error_sends_nothing bare_world
           (ErrorObject "pubspec.yaml does not exist at /work/pubspec.yaml") []).
  right. exists demo_vars. split; reflexivity.
Defined.

(** X11. Once the manifest is read, its version is published as the
    [version] output and stays so to the end of the run, also when a later
    step fails. *)
Theorem run_version_output_survives
  (w : World) (vars : EnvironmentVariables) (pubspec : PubspecYaml)
  (tr : trace) :
  getEnvironmentVariables (env w) = Returned vars ->
  fst (loadPubspec w (workspace vars) (packageRoot (getActionInputs w)) [])
  = Returned pubspec ->
  exists added,
    run w tr = (Returned tt, (tr ++ added)%list) /\
    output_of "version" added = Some (version pubspec).
Proof.
  intros Henv Hload.
  destruct (run_follows_path w tr) as [events [Hrun Hpath]].
  exists events. split; [exact Hrun|].
  destruct Hpath; same_call; concretize; reflexivity.
Qed.

Lemma run_version_output_survives_witness :
  exists added,
    run (demo_world refusing_host) [] = (Returned tt, ([] ++ added)%list) /\
    output_of "version" added = Some "2.3.4".
Proof.
  apply (run_version_output_survives (demo_world refusing_host) demo_vars
           {| version := "2.3.4" |} []); reflexivity.
Defined.





(** X13. A reference is requested only for a tag object the same run has
    just created: the request follows the tag creation and its log line,
    its path is [refs/tags/] followed by the tag name, its sha is the sha
    the host answered for the tag object, and nothing is requested after
    it. *)
Theorem run_reference_follows_tag
  (w : World) (tr added : trace) (o r ref s : string) :
  run w tr = (Returned tt, (tr ++ added)%list) ->
  In (CreateRef o r ref s) added ->
  exists vars before tag msg obj created after,
    getEnvironmentVariables (env w) = Returned vars /\
    added = (before
             ++ CreateTag o r tag msg obj "commit"
                :: Info ("Created tag object: " ++ created)
                :: CreateRef o r ref s :: after)%list /\
    ref = "refs/tags/" ++ tag /\
    createTag (getOctokit w (token vars)) o r tag msg obj "commit"
    = Returned {| data_tag := created; data_sha := s |} /\
    requests after = [].
Proof.
  intros Hrun Hin. apply run_added_unique in Hrun.
  destruct Hrun;
    try match goal with
        | Htag : createTag _ _ _ _ _ _ _ = Returned ?obj |- _ =>
            destruct obj as [created sha']; simpl in *
        end;
    concretize; simpl in Hin;
    repeat (destruct Hin as [Hin|Hin]; try discriminate Hin);
    try contradiction;
    injection Hin as <- <- <- <-;
    match goal with
    | Henv : getEnvironmentVariables _ = Returned ?vars |- _ => exists vars
    end;
    match goal with
    | |- exists before tag msg obj created after,
        _ /\ ?l = _ /\ _ =>
        let rec split_at l :=
          lazymatch l with
          | CreateTag ?o ?r ?tag ?msg ?obj _ :: Info _ :: CreateRef _ _ _ _ :: ?after =>
              constr:((@nil event, tag, msg, obj, after))
          | ?x :: ?l' =>
              let res := split_at l' in
              lazymatch res with
              | (?p, ?tag, ?msg, ?obj, ?after) =>
                  constr:((x :: p, tag, msg, obj, after))
              end
          end in
        let res := split_at l in
        lazymatch res with
        | (?p, ?tag, ?msg, ?obj, ?after) =>
            exists p, tag, msg, obj, created, after
        end
    end;
    (split; [assumption|
     split; [reflexivity|split; [reflexivity|split; [assumption|reflexivity]]]]).
Qed.

Lemma run_reference_follows_tag_witness :
  exists vars before tag msg obj created after,
    getEnvironmentVariables demo_env = Returned vars /\
    snd (run (demo_world creating_host) [])
    = (before
       ++ CreateTag "octo" "demo" tag msg obj "commit"
          :: Info ("Created tag object: " ++ created)
          :: CreateRef "octo" "demo" "refs/tags/v2.3.4" "7a9e5d1f" :: after)%list /\
    "refs/tags/v2.3.4" = "refs/tags/" ++ tag /\
    createTag creating_host "octo" "demo" tag msg obj "commit"
    = Returned {| data_tag := created; data_sha := "7a9e5d1f" |} /\
    requests after = [].
Proof.
  apply (run_reference_follows_tag (demo_world creating_host) []
           (snd (run (demo_world creating_host) []))
           "octo" "demo" "refs/tags/v2.3.4" "7a9e5d1f").
  - apply (appends_run (demo_world creating_host) []).
  - vm_compute. do 8 right. left. reflexivity.
Defined.

(** X14. A rejected tag listing is not an error: the run goes on as with no
    tags.  It logs the rejection, compares nothing, and asks for the tag
    object with the explicit message or, when there is none, with
    [Version] followed by the version. *)
Theorem run_listing_failure_means_no_tags
  (w : World) (vars : EnvironmentVariables) (pubspec : PubspecYaml)
  (e : thrown) (tr : trace) :
  getEnvironmentVariables (env w) = Returned vars ->
  fst (loadPubspec w (workspace vars) (packageRoot (getActionInputs w)) [])
  = Returned pubspec ->
  listTags (getOctokit w (token vars)) (context_owner w) (context_repo w) 100
  = Thrown e ->
  exists added,
    run w tr = (Returned tt, (tr ++ added)%list) /\
    In (Debug ("No tags found: " ++ describe e)) added /\
    In (CreateTag (context_owner w) (context_repo w)
          (tagNameOf (getActionInputs w) (version pubspec))
          (Js.or_else (tagMessage (getActionInputs w))
             ("Version " ++ version pubspec))
          (env_sha vars) "commit") added /\
    ~ In Comparison (requests added).
Proof.
  intros Henv Hload Hlist.
  destruct (run_follows_path w tr) as [events [Hrun Hpath]].
  exists events. split; [exact Hrun|].
  assert (Hmessage : forall text added,
             getTagMessage (getOctokit w (token vars)) (context_owner w)
               (context_repo w) (tagMessage (getActionInputs w))
               (fetched_tags (getOctokit w (token vars)) (context_owner w)
                  (context_repo w))
               (changelogStructure (getActionInputs w)) (version pubspec) []
             = (Returned text, added) ->
             text = Js.or_else (tagMessage (getActionInputs w))
                      ("Version " ++ version pubspec) /\ added = []).
  { intros text added. unfold fetched_tags, getTagMessage, Js.or_else.
    rewrite Hlist.
    destruct (Js.truthy (tagMessage (getActionInputs w))); simpl;
      unfold ret; intros H; injection H as <- <-; auto. }
  destruct Hpath; same_call;
    try match goal with
        | H : tagExists (fetched_tags _ _ _) _ = true |- _ =>
            unfold fetched_tags in H; rewrite Hlist in H; discriminate H
        end;
    match goal with
    | H : getTagMessage _ _ _ _ _ _ _ [] = _ |- _ =>
        destruct (Hmessage _ _ H) as [-> ->]
    end;
    unfold manifest_events, version_events, failure_events, empty_outputs,
      listing_events;
    rewrite Hlist; cbn [app]; simpl; intuition discriminate.
Qed.

Lemma run_listing_failure_means_no_tags_witness :
  exists added,
    run (demo_world refusing_host) [] = (Returned tt, ([] ++ added)%list) /\
    In (Debug "No tags found: Bad credentials") added /\
    In (CreateTag "octo" "demo" "v2.3.4" "Version 2.3.4" "c0ffee0" "commit")
      added /\
    ~ In Comparison (requests added).
Proof.
  apply (run_listing_failure_means_no_tags (demo_world refusing_host)
           demo_vars {| version := "2.3.4" |} (ErrorObject "Bad credentials") []);
    reflexivity.
Defined.

(** ** More on the tag message and the formatter *)

(** X15. With no explicit message and at least one existing tag, a
    comparison that answers with commits whose rendering is not empty makes
    that changelog the tag message.  The comparison is from the first listed
    tag to [main]; the other tags play no part. *)
Theorem getTagMessage_uses_changelog
  (github : Octokit) (owner repo : string) (latest : Tag) (others : list Tag)
  (structure version_ : string) (commits : list Commit) (tr : trace) :
  compareCommits github owner repo (name latest) "main" = Returned commits ->
  String.concat Js.nl (map (fun c => formatCommit c structure) commits)
  <> EmptyString ->
  getTagMessage github owner repo EmptyString (latest :: others)
    structure version_ tr
  = (Returned
       (String.concat Js.nl (map (fun c => formatCommit c structure) commits)),
     (tr ++ [CompareCommits owner repo (name latest) "main"])%list).
Proof.
  intros Hcompare Hnonempty.
  unfold getTagMessage, try_catch, generateChangelog, bind, request, ret.
  simpl. rewrite Hcompare, join_concat. unfold Js.or_else.
  destruct (String.concat Js.nl
              (map (fun c => formatCommit c structure) commits));
    [exfalso; apply Hnonempty; reflexivity|reflexivity].
Qed.

Lemma getTagMessage_uses_changelog_witness :
  getTagMessage comparing_host "octo" "demo" EmptyString
    [{| name := "v1.0.0" |}; {| name := "v0.9.0" |}]
    "{{messageHeadline}} by {{author}}" "1.1.0" []
  = (Returned ("feat: add tagging by octocat" ++ Js.nl ++ "fix: trim input by "),
     [CompareCommits "octo" "demo" "v1.0.0" "main"]).
Proof.
  assert (Hrender :
            String.concat Js.nl
              (map (fun c => formatCommit c "{{messageHeadline}} by {{author}}")
                 [commit_feature; commit_fix])
            = "feat: add tagging by octocat" ++ Js.nl ++ "fix: trim input by ").
  { unfold formatCommit. simpl map.
    repeat (rewrite replace_global_step; simpl). reflexivity. }
  rewrite <- Hrender.
  apply (getTagMessage_uses_changelog comparing_host "octo" "demo"
           {| name := "v1.0.0" |} [{| name := "v0.9.0" |}]
           "{{messageHeadline}} by {{author}}" "1.1.0"
           [commit_feature; commit_fix] [] eq_refl).
  rewrite Hrender. discriminate.
Defined.

(** X16. With the default changelog structure every commit is rendered as
    two asterisks, its full message, two asterisks and a space, its sha, a
    closing parenthesis and a newline. *)
Theorem formatCommit_default_structure (c : Commit) :
  formatCommit c default_structure
  = "**" ++ message (commit c) ++ "** " ++ sha c ++ ")" ++ Js.nl.
Proof.
  unfold formatCommit, default_structure.
  repeat (rewrite replace_global_step; simpl).
  reflexivity.
Qed.

Lemma first_line_prefix s :
  exists tail,
    s = first_line s ++ tail /\
    (tail = EmptyString \/ exists tail', tail = Js.nl ++ tail').
Proof.
  induction s as [|a s [tail [IH Htail]]]; simpl.
  - exists EmptyString. split; [reflexivity|left; reflexivity].
  - destruct (Ascii.eqb a Js.LF) eqn:E.
    + apply Ascii.eqb_eq in E. subst a.
      exists (String Js.LF s). split; [reflexivity|].
      right. exists s. reflexivity.
    + exists tail. split; [simpl; rewrite <- IH; reflexivity|exact Htail].
Qed.

Lemma first_line_single s : ~ occurs Js.nl (first_line s).
Proof.
  induction s as [|a s IH]; simpl.
  - intros [b [t E]]. destruct b; discriminate E.
  - destruct (Ascii.eqb a Js.LF) eqn:E.
    + intros [b [t E']]. destruct b; discriminate E'.
    + intros H. apply occurs_nl_cons in H. destruct H as [->|H].
      * rewrite Ascii.eqb_refl in E. discriminate E.
      * exact (IH H).
Qed.

(** X17. For every commit the headline is a beginning of the message that
    holds no newline, and what follows it in the message is nothing or
    starts with a newline. *)
Theorem formatCommit_headline_is_first_line (c : Commit) :
  exists tail,
    message (commit c) = formatCommit c "{{messageHeadline}}" ++ tail /\
    ~ occurs Js.nl (formatCommit c "{{messageHeadline}}") /\
    (tail = EmptyString \/ exists tail', tail = Js.nl ++ tail').
Proof.
  assert (Hfmt : formatCommit c "{{messageHeadline}}"
                 = first_line (message (commit c))).
  { etransitivity;
      [exact (formatCommit_token c TMessageHeadline EmptyString)|].
    unfold formatCommit. rewrite replace_global_step. simpl.
    apply app_nil_r_s. }
  rewrite Hfmt.
  destruct (first_line_prefix (message (commit c))) as [tail [Hs Htail]].
  exists tail. split; [exact Hs|]. split; [apply first_line_single|exact Htail].
Qed.

Lemma trim_start_empty s :
  Js.trim_start s = EmptyString <->
  (forall a, In a (list_ascii_of_string s) -> Js.is_space a = true).
Proof.
  induction s as [|a s IH]; simpl.
  - split; [intros _ b []|reflexivity].
  - destruct (Js.is_space a) eqn:E.
    + rewrite IH. split.
      * intros H b [<-|Hb]; [exact E|apply H; exact Hb].
      * intros H b Hb. apply H. right. exact Hb.
    + split; [discriminate|].
      intros H. rewrite (H a (or_introl eq_refl)) in E. discriminate E.
Qed.

Lemma trim_end_empty s :
  Js.trim_end s = EmptyString <->
  (forall a, In a (list_ascii_of_string s) -> Js.is_space a = true).
Proof.
  induction s as [|a s IH]; simpl.
  - split; [intros _ b []|reflexivity].
  - destruct (Js.trim_end s) eqn:Et.
    + destruct (Js.is_space a) eqn:E.
      * split; [|reflexivity].
        intros _ b [<-|Hb]; [exact E|].
        apply (proj1 IH eq_refl). exact Hb.
      * split; [discriminate|].
        intros H. rewrite (H a (or_introl eq_refl)) in E. discriminate E.
    + split; [discriminate|].
      intros H.
      assert (Hx : String a0 s0 = EmptyString)
        by (apply (proj2 IH); intros b Hb; apply H; right; exact Hb).
      discriminate Hx.
Qed.

Lemma trim_start_head s :
  Js.trim_start s = EmptyString \/
  exists a t, Js.trim_start s = String a t /\ Js.is_space a = false.
Proof.
  induction s as [|a s IH]; simpl; [left; reflexivity|].
  destruct (Js.is_space a) eqn:E; [exact IH|].
  right. exists a, s. split; [reflexivity|exact E].
Qed.

(** X18. The tag message input counts as empty exactly when it holds
    nothing but white space: it is trimmed when the inputs are read, so a
    blank message leads to the generated or default message like no
    message at all. *)
Theorem getActionInputs_blank_message (w : World) :
  tagMessage (getActionInputs w) = EmptyString <->
  (forall a,
      In a (list_ascii_of_string (getInput w "tag_message")) ->
      Js.is_space a = true).
Proof.
  unfold getActionInputs. simpl. unfold Js.trim.
  rewrite <- trim_start_empty.
  destruct (trim_start_head (getInput w "tag_message"))
    as [Hempty|[a [t [Hhead Hspace]]]].
  - rewrite Hempty. simpl. split; reflexivity.
  - rewrite Hhead. rewrite trim_end_empty. split; [|discriminate].
    intros H. rewrite (H a (or_introl eq_refl)) in Hspace. discriminate Hspace.
Qed.

Lemma getTagMessage_comparison github owner repo msg tags structure version_
  text added o r base head :
  getTagMessage github owner repo msg tags structure version_ []
  = (Returned text, added) ->
  In (CompareCommits o r base head) added ->
  o = owner /\ r = repo /\ msg = EmptyString /\ head = "main" /\
  exists latest others, tags = latest :: others /\ base = name latest.
Proof.
  unfold getTagMessage.
  destruct msg as [|a msg]; simpl.
  - destruct tags as [|latest others]; simpl.
    + unfold ret. intros H. injection H as <- <-. intros [].
    + unfold try_catch, generateChangelog, bind, request, ret, emit.
      destruct (compareCommits github owner repo (name latest) "main");
        simpl; intros H; injection H as <- <-; simpl;
        intros Hin;
        repeat (destruct Hin as [Hin|Hin]; try discriminate Hin);
        try contradiction;
        injection Hin as <- <- <- <-;
        repeat (split; [reflexivity|]);
        exists latest, others; split; reflexivity.
  - unfold ret. intros H. injection H as <- <-. intros [].
Qed.

Ltac no_such_event Hin :=
  simpl in Hin;
  repeat (destruct Hin as [Hin|Hin]; try discriminate Hin);
  contradiction.

(** X19. A run compares commits only when no explicit message was given
    and the listing returned at least one tag; the comparison is then from
    the first listed tag to [main], in the repository of the context. *)
Theorem run_comparison_only_without_message
  (w : World) (tr added : trace) (o r base head : string) :
  run w tr = (Returned tt, (tr ++ added)%list) ->
  In (CompareCommits o r base head) added ->
  o = context_owner w /\ r = context_repo w /\ head = "main" /\
  tagMessage (getActionInputs w) = EmptyString /\
  exists vars latest others,
    getEnvironmentVariables (env w) = Returned vars /\
    fetched_tags (getOctokit w (token vars)) (context_owner w) (context_repo w)
    = latest :: others /\
    base = name latest.
Proof.
  intros Hrun Hin. apply run_added_unique in Hrun.
  destruct Hrun as [e Henv|vars e Henv Hload|vars pubspec Henv Hload Hexists
                    |vars pubspec text events e Henv Hload Hexists Hmsg Htag
                    |vars pubspec text events obj e Henv Hload Hexists Hmsg Htag Href
                    |vars pubspec text events obj reference Henv Hload Hexists
                       Hmsg Htag Href].
  1-3: exfalso; concretize; no_such_event Hin.
  all: apply in_app_or in Hin; destruct Hin as [Hin|Hin];
    [exfalso; no_such_event Hin|];
    apply in_app_or in Hin; destruct Hin as [Hin|Hin];
    [exfalso; no_such_event Hin|];
    apply in_app_or in Hin; destruct Hin as [Hin|Hin];
    [exfalso; concretize; no_such_event Hin|];
    apply in_app_or in Hin; destruct Hin as [Hin|Hin];
    [|exfalso; unfold failure_events, empty_outputs in Hin; no_such_event Hin];
    destruct (getTagMessage_comparison _ _ _ _ _ _ _ _ _ _ _ _ _ Hmsg Hin)
      as [-> [-> [Hm [-> [latest [others [Htags ->]]]]]]];
    repeat (split; [reflexivity || exact Hm|]);
    exists vars, latest, others; repeat split; assumption.
Qed.

Lemma run_comparison_only_without_message_witness :
  "octo" = "octo" /\ "demo" = "demo" /\ "main" = "main" /\
  tagMessage (getActionInputs (demo_world creating_host)) = EmptyString /\
  exists vars latest others,
    getEnvironmentVariables demo_env = Returned vars /\
    fetched_tags creating_host "octo" "demo" = latest :: others /\
    "v2.3.3" = name latest.
Proof.
  apply (run_comparison_only_without_message (demo_world creating_host) []
           (snd (run (demo_world creating_host) []))
           "octo" "demo" "v2.3.3" "main").
  - apply (appends_run (demo_world creating_host) []).
  - vm_compute. do 5 right. left. reflexivity.
Defined.

(** X20. When the comparison answers with two or more commits the tag
    message is always the changelog and never the [Version] fallback, even
    if every commit renders to the empty string: the newlines between the
    renderings make it non-empty. *)
Theorem getTagMessage_two_commits_never_fall_back
  (github : Octokit) (owner repo : string) (latest : Tag) (others : list Tag)
  (structure version_ : string) (c1 c2 : Commit) (more : list Commit)
  (tr : trace) :
  compareCommits github owner repo (name latest) "main"
  = Returned (c1 :: c2 :: more) ->
  exists changelog,
    getTagMessage github owner repo EmptyString (latest :: others)
      structure version_ tr
    = (Returned (formatCommit c1 structure ++ Js.nl ++ changelog),
       (tr ++ [CompareCommits owner repo (name latest) "main"])%list) /\
    changelog
    = String.concat Js.nl
        (map (fun c => formatCommit c structure) (c2 :: more)).
Proof.
  intros Hcompare.
  exists (String.concat Js.nl
            (map (fun c => formatCommit c structure) (c2 :: more))).
  split; [|reflexivity].
  unfold getTagMessage, try_catch, generateChangelog, bind, request, ret.
  simpl List.length. cbn [Nat.eqb Js.truthy]. rewrite Hcompare, join_concat.
  cbn [map].
  change (String.concat Js.nl
            (formatCommit c1 structure :: formatCommit c2 structure
             :: map (fun c => formatCommit c structure) more))
    with (formatCommit c1 structure ++ Js.nl
          ++ String.concat Js.nl
               (formatCommit c2 structure
                :: map (fun c => formatCommit c structure) more)).
  unfold Js.or_else.
  destruct (formatCommit c1 structure); reflexivity.
Qed.

Lemma getTagMessage_two_commits_never_fall_back_witness :
  getTagMessage anonymous_host "octo" "demo" EmptyString
    [{| name := "v1.0.0" |}] "{{author}}" "1.1.0" []
  = (Returned Js.nl, [CompareCommits "octo" "demo" "v1.0.0" "main"]).
Proof.
  destruct (getTagMessage_two_commits_never_fall_back anonymous_host
              "octo" "demo" {| name := "v1.0.0" |} [] "{{author}}" "1.1.0"
              (commit_anonymous "one") (commit_anonymous "two") [] [] eq_refl)
    as [changelog [Hrun Hchangelog]].
  rewrite Hrun, Hchangelog.
  unfold formatCommit. simpl map.
  repeat (rewrite replace_global_step; simpl).
  reflexivity.
Defined.

(** X21. The errors of [loadPubspec]: a missing file is reported with the
    path that was looked up; a document that is empty, not an object, or
    has no [version] entry is reported as missing the version field; a
    [version] that is not a non-empty string is reported as such. *)
Theorem loadPubspec_errors
  (w : World) (ws root : string) (tr : trace) :
  let path := path_join w ws root "pubspec.yaml" in
  (existsSync w path = false ->
   fst (loadPubspec w ws root tr)
   = Thrown (ErrorObject ("pubspec.yaml does not exist at " ++ path))) /\
  (forall contents parsed,
      existsSync w path = true ->
      readFileSync w path = Returned contents ->
      yaml_load w contents = Returned parsed ->
      (yaml_falsy parsed = true \/ object_fields parsed = None \/
       exists fields,
         object_fields parsed = Some fields /\
         lookup_field "version" fields = None) ->
      fst (loadPubspec w ws root tr)
      = Thrown (ErrorObject "Invalid pubspec.yaml: missing version field")) /\
  (forall contents parsed fields value,
      existsSync w path = true ->
      readFileSync w path = Returned contents ->
      yaml_load w contents = Returned parsed ->
      object_fields parsed = Some fields ->
      lookup_field "version" fields = Some value ->
      (forall v, value = YString v -> v = EmptyString) ->
      fst (loadPubspec w ws root tr)
      = Thrown (ErrorObject
                  "Invalid pubspec.yaml: version must be a non-empty string")).
Proof.
  intros path. subst path.
  unfold loadPubspec, bind, emit, throw, lift, ret. simpl.
  split; [|split].
  - intros ->. reflexivity.
  - intros contents parsed -> -> Hparse Hcase. simpl. rewrite Hparse.
    destruct (yaml_falsy parsed) eqn:Hfalsy; [reflexivity|].
    destruct Hcase as [Hcase|[Hcase|[fields [Hfields Hlook]]]].
    + discriminate Hcase.
    + rewrite Hcase. reflexivity.
    + rewrite Hfields, Hlook. reflexivity.
  - intros contents parsed fields value -> -> Hparse Hfields Hlook Hvalue.
    simpl. rewrite Hparse.
    assert (Hfalsy : yaml_falsy parsed = false).
    { destruct parsed; simpl in *; try discriminate Hfields; reflexivity. }
    rewrite Hfalsy, Hfields, Hlook.
    destruct value; try reflexivity.
    rewrite (Hvalue s eq_refl). reflexivity.
Qed.

Lemma loadPubspec_errors_witness :
  fst (loadPubspec bare_world "/work" "./" [])
  = Thrown (ErrorObject "pubspec.yaml does not exist at /work/pubspec.yaml") /\
  fst (loadPubspec numbered_world "/work" "./" [])
  = Thrown (ErrorObject
              "Invalid pubspec.yaml: version must be a non-empty string").
Proof.
  split.
  - apply (proj1 (loadPubspec_errors bare_world "/work" "./" [])).
    reflexivity.
  - apply (proj2 (proj2 (loadPubspec_errors numbered_world "/work" "./" []))
             "version: 2" (YObject [("version", YNumber 2)])
             [("version", YNumber 2)] (YNumber 2));
      try reflexivity.
    intros v Hv. discriminate Hv.
Defined.
